(** * sqlite-ai-examples: the chatbot services and the todo sync client

    A shallow embedding of
      - quickstarts/sqlite_ai/services/{db,ai,chat,cli}.py
      - quickstarts/sqlite_sync/sync.py
    Python objects become records, methods become functions that take the
    receiver and return it updated, exceptions become the [Raised] outcome,
    and the SQLite connection becomes a record holding the tables the code
    reads and writes.  Everything outside the repository (the native
    extensions, the wall clock, the file system, the random source) is an
    interface the definitions are parameterised by.

    What makes a statement raise is in the state: the connection is closed,
    the table was never created, the table has used up its row ids, or a
    parameter does not fit an SQLite INTEGER; an extension function raises
    when the extension says so.  A commit raises on a closed connection
    only.  The connection of an [AIClient] and the connection of the
    [DatabaseManager] a [ChatService] stores to are two objects, as in every
    place that builds them; the first serves the extension calls, the second
    holds [chat_history]. *)

From Stdlib Require Import List String Ascii ZArith Lia Bool Sorted DecimalString.
Import ListNotations.
Open Scope string_scope.
Open Scope list_scope.
Open Scope Z_scope.

Set Implicit Arguments.

(** ** Python values and control flow *)

Module Py.

(** The exception classes the code can meet; all derive from [Exception]. *)
Inductive ExnClass : Type :=
| OperationalError
| ProgrammingError
| IntegrityError
| OverflowError
| AttributeError
| TypeError
| DatabaseError
| OtherException.

Record Exn : Type := mkExn { exn_class : ExnClass; str : string }.

(** The result of a call: a value, or an exception on its way up. *)
Inductive Outcome (A : Type) : Type :=
| Returned (a : A)
| Raised (e : Exn).

Arguments Returned {A} a.
Arguments Raised {A} e.

Definition raised {A : Type} (o : Outcome A) : bool :=
  match o with Returned _ => false | Raised _ => true end.

(** Truth value of a [str]: only the empty string is falsy. *)
Definition truthy (s : string) : bool := negb (s =? "")%string.

(** Truth value of an [Optional[str]]: [None] and the empty string are falsy. *)
Definition truthy_opt (o : option string) : bool :=
  match o with None => false | Some s => truthy s end.

(** A computation over a mutable object of type [S] that may raise. *)
Definition Action (S A : Type) : Type := S -> Outcome A * S.

Definition ret {S A : Type} (a : A) : Action S A := fun s => (Returned a, s).

Definition raise {S A : Type} (e : Exn) : Action S A := fun s => (Raised e, s).

Definition bind {S A B : Type} (m : Action S A) (k : A -> Action S B) : Action S B :=
  fun s => match m s with
           | (Returned a, s') => k a s'
           | (Raised e, s') => (Raised e, s')
           end.

(** [try: m  except Exception as e: h e] *)
Definition try_except {S A : Type} (m : Action S A) (h : Exn -> Action S A) : Action S A :=
  fun s => match m s with
           | (Returned a, s') => (Returned a, s')
           | (Raised e, s') => h e s'
           end.

(** [try: m  except cls as e: h e]: an exception of another class goes on up. *)
Definition is_class (cls e : ExnClass) : bool :=
  match cls, e with
  | OperationalError, OperationalError | ProgrammingError, ProgrammingError
  | IntegrityError, IntegrityError | OverflowError, OverflowError
  | AttributeError, AttributeError | TypeError, TypeError
  | DatabaseError, DatabaseError | OtherException, OtherException => true
  | _, _ => false
  end.

Definition try_except_only {S A : Type} (cls : ExnClass) (m : Action S A)
  (h : Exn -> Action S A) : Action S A :=
  fun s => match m s with
           | (Returned a, s') => (Returned a, s')
           | (Raised e, s') => if is_class cls (exn_class e) then h e s' else (Raised e, s')
           end.

(** [try: m  except Exception: h], where the handler yields a value. *)
Definition catch {S A : Type} (m : Action S A) (h : Exn -> A) : S -> A * S :=
  fun s => match m s with
           | (Returned a, s') => (a, s')
           | (Raised e, s') => (h e, s')
           end.

(** [click.echo]: a process is the object the code works on and what it
    has printed so far, oldest line first. *)
Inductive Stream : Type := stdout | stderr.

Record Process (C : Type) : Type := mkProcess {
  client : C;
  console : list (Stream * string)
}.

Definition echo_to {C : Type} (f : Stream) (line : string) : Action (Process C) unit :=
  fun p => (Returned tt, mkProcess (client p) (console p ++ [(f, line)])).

Definition echo {C : Type} (line : string) : Action (Process C) unit :=
  echo_to stdout line.

(** Run a method of the object the process works on. *)
Definition on_client {C A : Type} (m : Action C A) : Action (Process C) A :=
  fun p => let (o, c) := m (client p) in (o, mkProcess c (console p)).

(** The exit status of a click command run as a program: 0 when the
    callback returns, 1 when an exception escapes it. *)
Definition exit_code {A : Type} (o : Outcome A) : Z :=
  match o with Returned _ => 0 | Raised _ => 1 end.

(** The line feed, and [str] of an [int]. *)
Definition NL : string := String (ascii_of_nat 10) "".

Definition str_of_int (z : Z) : string := NilZero.string_of_int (Z.to_int z).

End Py.

Import Py.

Declare Scope action_scope.
Delimit Scope action_scope with action.
Notation "x <- m ;; k" := (bind m (fun x => k))
  (at level 100, m at next level, right associativity) : action_scope.
Notation "m ;;; k" := (bind m (fun _ => k))
  (at level 100, right associativity) : action_scope.

(** ** The outside world of the chatbot

    [llm_model_load] and [llm_text_generate] are the SQL functions of the
    SQLite-AI extension; each takes the bound parameter and yields the rows of
    the one-column result (a column value is NULL or text), or raises.  When
    the extension is not loaded they raise "no such function". *)

Class Environment (Env : Type) : Type := {
  llm_model_load : string -> Env -> Outcome (list (option string)) * Env;
  llm_text_generate : string -> Env -> Outcome (list (option string)) * Env;
  CURRENT_TIMESTAMP : Env -> string * Env;
  os_path_exists : Env -> string -> bool
}.

(** ** sqlite3: the connection and the statements the services execute *)

Module Sqlite.

(** A row of [chat_history] (schema in [ChatService.setup_schema]). *)
Record ChatRow : Type := mkChatRow {
  id : Z;
  role : string;
  message : string;
  model_used : option string;
  created_at : string;
  session_id : string
}.

(** The statements of db.py, ai.py and chat.py, with their bound parameters. *)
Inductive Stmt : Type :=
| CreateChatHistory
| InsertChatHistory (role message : string) (model_used : option string) (session_id : string)
| SelectHistory (session_id : string) (limit : Z)
| DeleteHistory (session_id : string)
| CountSession (session_id : string)
| CountSessionUser (session_id : string)
| SelectLlmModelLoad (model_path : string)
| SelectLlmTextGenerate (prompt : string).

(** What [execute] hands back. *)
Record Cursor (A : Type) : Type := mkCursor { fetchall : list A; rowcount : Z }.

Definition fetchone {A : Type} (c : Cursor A) : option A := hd_error (fetchall c).

(** Largest rowid of SQLite, and the range of an SQLite INTEGER parameter. *)
Definition MAX_ROWID : Z := 9223372036854775807.
Definition MIN_INT64 : Z := - 9223372036854775808.

Section Connection.
Context {Env : Type} {E : Environment Env}.

(** One [sqlite3.Connection].  [chat_history] is [None] until the table is
    created; its rows are kept in the order they were inserted.
    [sqlite_sequence] is the AUTOINCREMENT counter of the table, [executed]
    the statements handed to [execute] so far (oldest first). *)
Record Connection : Type := mkConnection {
  is_open : bool;
  chat_history : option (list ChatRow);
  sqlite_sequence : Z;
  in_transaction : bool;
  executed : list Stmt;
  env : Env
}.

Definition DB (A : Type) : Type := Action Connection A.

Definition rows_of (c : Connection) : list ChatRow :=
  match chat_history c with Some rows => rows | None => [] end.

Definition closed_error : Exn :=
  mkExn ProgrammingError "Cannot operate on a closed database.".

Definition no_such_table : Exn :=
  mkExn OperationalError "no such table: chat_history".

(** Every [execute] records the statement and refuses a closed connection. *)
Definition prepare (s : Stmt) : DB unit :=
  fun c =>
    let c' := mkConnection (is_open c) (chat_history c) (sqlite_sequence c)
                           (in_transaction c) (executed c ++ [s]) (env c) in
    if is_open c then (Returned tt, c') else (Raised closed_error, c').

Definition the_table : DB (list ChatRow) :=
  fun c => match chat_history c with
           | Some rows => (Returned rows, c)
           | None => (Raised no_such_table, c)
           end.

Definition write_table (rows : list ChatRow) (seq : Z) : DB unit :=
  fun c => (Returned tt,
            mkConnection (is_open c) (Some rows) seq true (executed c) (env c)).

Definition now : DB string :=
  fun c => let (t, w) := CURRENT_TIMESTAMP (env c) in
           (Returned t,
            mkConnection (is_open c) (chat_history c) (sqlite_sequence c)
                         (in_transaction c) (executed c) w).

Definition max_rowid (rows : list ChatRow) : Z :=
  fold_right (fun r m => Z.max (id r) m) 0 rows.

(** CREATE TABLE IF NOT EXISTS chat_history (...) *)
Definition execute_create : DB (Cursor unit) :=
  (prepare CreateChatHistory ;;;
   fun c => (Returned (mkCursor [] (-1)),
             mkConnection (is_open c)
                          (Some (rows_of c)) (sqlite_sequence c)
                          (in_transaction c) (executed c) (env c)))%action.

(** INSERT INTO chat_history (role, message, model_used, session_id)
    VALUES (?, ?, ?, ?): the id is one more than the largest rowid the table
    ever held, and the insert fails once that is the largest rowid there is. *)
Definition execute_insert (role message : string) (model_used : option string)
  (session_id : string) : DB (Cursor unit) :=
  (prepare (InsertChatHistory role message model_used session_id) ;;;
   rows <- the_table ;;
   fun c =>
     let top := Z.max (sqlite_sequence c) (max_rowid rows) in
     if MAX_ROWID <=? top
     then (Raised (mkExn OperationalError "database or disk is full"),
           mkConnection (is_open c) (chat_history c) (sqlite_sequence c)
                        true (executed c) (env c))
     else (t <- now ;;
           write_table (rows ++ [mkChatRow (top + 1) role message model_used t session_id])
                       (top + 1) ;;;
           ret (mkCursor [] 1))%action c)%action.

(** WHERE session_id = ? *)
Definition in_session (sid : string) (r : ChatRow) : bool :=
  (session_id r =? sid)%string.

(** ORDER BY id DESC, by insertion into a descending list. *)
Fixpoint insert_desc (r : ChatRow) (l : list ChatRow) : list ChatRow :=
  match l with
  | [] => [r]
  | x :: l' => if id x <=? id r then r :: l else x :: insert_desc r l'
  end.

Definition order_by_id_desc (l : list ChatRow) : list ChatRow :=
  fold_right insert_desc [] l.

(** LIMIT ?: a negative limit is no limit. *)
Definition limit_rows (n : Z) (l : list ChatRow) : list ChatRow :=
  if n <? 0 then l else firstn (Z.to_nat n) l.

(** WHERE session_id = ? ORDER BY id DESC LIMIT ? *)
Definition selected (sid : string) (limit : Z) (rows : list ChatRow) : list ChatRow :=
  limit_rows limit (order_by_id_desc (filter (in_session sid) rows)).

(** Orders on rows by id: as ORDER BY id DESC lists them, and as they are
    inserted. *)
Definition newer_or_same (a b : ChatRow) : Prop := id a >= id b.
Definition older (a b : ChatRow) : Prop := id a < id b.

(** A [sqlite3.Row] of the history query, as the mapping [dict(row)] gives. *)
Definition history_row (r : ChatRow) : list (string * string) :=
  [("role", role r); ("message", message r); ("created_at", created_at r)].

(** SELECT role, message, created_at FROM chat_history
    WHERE session_id = ? ORDER BY id DESC LIMIT ?
    A limit outside the 64-bit range cannot be bound. *)
Definition execute_select_history (sid : string) (limit : Z)
  : DB (Cursor (list (string * string))) :=
  (prepare (SelectHistory sid limit) ;;;
   rows <- the_table ;;
   if (limit <? MIN_INT64) || (MAX_ROWID <? limit)
   then raise (mkExn OverflowError "Python int too large to convert to SQLite INTEGER")
   else ret (mkCursor (map history_row (selected sid limit rows)) (-1)))%action.

(** DELETE FROM chat_history WHERE session_id = ? *)
Definition execute_delete (sid : string) : DB (Cursor unit) :=
  (prepare (DeleteHistory sid) ;;;
   rows <- the_table ;;
   fun c =>
     (Returned (mkCursor [] (Z.of_nat (List.length (filter (in_session sid) rows)))),
      mkConnection (is_open c)
                   (Some (filter (fun r => negb (in_session sid r)) rows))
                   (sqlite_sequence c) true (executed c) (env c)))%action.

(** COUNT of the rows a scan of the table finds to satisfy [p]. *)
Definition count_where (p : ChatRow -> bool) (rows : list ChatRow) : Z :=
  fold_left (fun n r => if p r then n + 1 else n) rows 0.

Definition is_user (r : ChatRow) : bool := (role r =? "user")%string.

(** SELECT COUNT of chat_history WHERE session_id = ? *)
Definition execute_count (sid : string) : DB (Cursor Z) :=
  (prepare (CountSession sid) ;;;
   rows <- the_table ;;
   ret (mkCursor [count_where (in_session sid) rows] (-1)))%action.

(** SELECT COUNT of chat_history WHERE session_id = ? AND role = 'user' *)
Definition execute_count_user (sid : string) : DB (Cursor Z) :=
  (prepare (CountSessionUser sid) ;;;
   rows <- the_table ;;
   ret (mkCursor [count_where (fun r => in_session sid r && is_user r) rows] (-1)))%action.

(** A SELECT of one of the extension's functions: the extension answers. *)
Definition call_extension
  (f : Env -> Outcome (list (option string)) * Env) : DB (Cursor (option string)) :=
  fun c =>
    let (o, w) := f (env c) in
    let c' := mkConnection (is_open c) (chat_history c) (sqlite_sequence c)
                           (in_transaction c) (executed c) w in
    match o with
    | Returned rows => (Returned (mkCursor rows (-1)), c')
    | Raised e => (Raised e, c')
    end.

(** SELECT llm_model_load(?) *)
Definition execute_llm_model_load (model_path : string) : DB (Cursor (option string)) :=
  (prepare (SelectLlmModelLoad model_path) ;;;
   call_extension (llm_model_load model_path))%action.

(** SELECT llm_text_generate(?) *)
Definition execute_llm_text_generate (prompt : string) : DB (Cursor (option string)) :=
  (prepare (SelectLlmTextGenerate prompt) ;;;
   call_extension (llm_text_generate prompt))%action.

Definition commit : DB unit :=
  fun c =>
    if is_open c
    then (Returned tt,
          mkConnection (is_open c) (chat_history c) (sqlite_sequence c)
                       false (executed c) (env c))
    else (Raised closed_error, c).

(** The statements that call the native extension. *)
Definition is_extension_call (s : Stmt) : bool :=
  match s with
  | SelectLlmModelLoad _ | SelectLlmTextGenerate _ => true
  | _ => false
  end.

(** No row has an id above the AUTOINCREMENT counter. *)
Definition ids_within_sequence (c : Connection) : Prop :=
  Forall (fun r => id r <= sqlite_sequence c) (rows_of c).

End Connection.

Arguments Connection Env : clear implicits.
Arguments DB Env A : clear implicits.

End Sqlite.

(** ** db.py *)

Module DatabaseManager.
Section DatabaseManager.
Context {Env : Type} {E : Environment Env}.

Record t : Type := mk {
  current_model_path : option string;
  db : Sqlite.Connection Env
}.

(** Run an action of the connection on [self.db]. *)
Definition on_db {A : Type} (m : Sqlite.DB Env A) : Action t A :=
  fun self =>
    let (o, c) := m (db self) in (o, mk (current_model_path self) c).

(** [__init__(self, database_path)]: [connect] stands for the body of the
    [try], which makes the directory of the path and opens the file. *)
Definition init (connect : string -> Outcome (Sqlite.Connection Env))
  (database_path : string) : Outcome t :=
  match connect database_path with
  | Returned c => Returned (mk None c)
  | Raised e => Raised (mkExn DatabaseError ("Failed to connect to Database: " ++ str e)%string)
  end.

(** [sql(self, sql, parameters=None)]: [statement] is the [execute] of the
    given text with the given parameters.  [self.db] is a connection, which
    is truthy, so the first [raise] is never reached. *)
Definition sql {A : Type} (statement : Sqlite.DB Env (Sqlite.Cursor A))
  : Action t (Sqlite.Cursor A) :=
  try_except
    (on_db (result <- statement ;; Sqlite.commit ;;; ret result))%action
    (fun e => raise (mkExn DatabaseError ("SQL execution failed: " ++ str e)%string)).

End DatabaseManager.
Arguments t Env : clear implicits.
End DatabaseManager.

(** ** ai.py *)

Module AIClient.
Section AIClient.
Context {Env : Type} {E : Environment Env}.

Record t : Type := mk {
  session_id : string;
  database_manager : DatabaseManager.t Env;
  current_model_path : option string
}.

Definition on_database_manager {A : Type} (m : Action (DatabaseManager.t Env) A)
  : Action t A :=
  fun self =>
    let (o, d) := m (database_manager self) in
    (o, mk (session_id self) d (current_model_path self)).

Definition set_current_model_path (p : string) : Action t unit :=
  fun self => (Returned tt, mk (session_id self) (database_manager self) (Some p)).

(** The file system as this client sees it. *)
Definition path_exists (self : t) (p : string) : bool :=
  os_path_exists (Sqlite.env (DatabaseManager.db (database_manager self))) p.

(** [load_model(self, model_path) -> bool] *)
Definition load_model (model_path : string) : Action t bool :=
  fun self =>
    if negb (path_exists self model_path)
    then (Returned false, self)
    else try_except
           (on_database_manager
              (DatabaseManager.on_db (Sqlite.execute_llm_model_load model_path)) ;;;
            set_current_model_path model_path ;;;
            ret true)%action
           (fun _ => ret false)
           self.

Definition NO_MODEL : string := "No model loaded. Please load a model first.".
Definition NO_RESPONSE : string := "Sorry, I couldn't generate a response.".
Definition ERROR_PREFIX : string := "Error generating response: ".

(** [result[0] if result and result[0] else "Sorry, ..."] *)
Definition first_column_or_sorry (result : option (option string)) : string :=
  match result with
  | Some (Some text) => if truthy text then text else NO_RESPONSE
  | Some None => NO_RESPONSE
  | None => NO_RESPONSE
  end.

(** [complete(self, message) -> str] *)
Definition complete (message : string) : Action t string :=
  fun self =>
    if negb (truthy_opt (current_model_path self))
    then (Returned NO_MODEL, self)
    else try_except
           (cur <- on_database_manager
                     (DatabaseManager.on_db (Sqlite.execute_llm_text_generate message)) ;;
            ret (first_column_or_sorry (Sqlite.fetchone cur)))%action
           (fun e => ret (ERROR_PREFIX ++ str e)%string)
           self.

(** The statements this client's connection has executed. *)
Definition executed (self : t) : list Sqlite.Stmt :=
  Sqlite.executed (DatabaseManager.db (database_manager self)).

Definition DEFAULT_DATABASE_PATH : string := "./data/chatbot.db".

(** [__init__(self, database_path="./data/chatbot.db", client_id=None)]:
    [uuid] is what [str(uuid4())] gives. *)
Definition init (connect : string -> Outcome (Sqlite.Connection Env)) (uuid : string)
  (database_path : string) (client_id : option string) : Outcome t :=
  let session_id := match client_id with
                    | None => substring 0 8 uuid
                    | Some given => given
                    end in
  match DatabaseManager.init connect database_path with
  | Returned dm => Returned (mk session_id dm None)
  | Raised e => Raised e
  end.

End AIClient.
Arguments t Env : clear implicits.
End AIClient.

(** ** chat.py *)

(** What [ChatService] asks of its [ai] attribute: an [AIClient], or any
    object with the same two members. *)
Class AI (T : Type) : Type := {
  ai_complete : string -> Action T string;
  ai_current_model_path : T -> option string
}.

#[export] Instance AIClient_is_AI {Env : Type} {E : Environment Env} : AI (AIClient.t Env) := {
  ai_complete := AIClient.complete;
  ai_current_model_path := @AIClient.current_model_path Env
}.

Module ChatService.
Section ChatService.
Context {Env : Type} {E : Environment Env} {T : Type} {A : AI T}.

(** [db] is [None] when the service was built without a database. *)
Record t : Type := mk {
  ai : T;
  db : option (DatabaseManager.t Env)
}.

(** [setup_schema(self) -> None] *)
Definition setup_schema : Action (DatabaseManager.t Env) unit :=
  try_except
    (DatabaseManager.on_db (Sqlite.execute_create ;;; Sqlite.commit))%action
    (fun e => raise (mkExn DatabaseError
                           ("Failed to setup database schema: " ++ str e)%string)).

(** The body of the [try] of [chat]: both inserts, then the commit. *)
Definition store_turn (model_used : option string) (session_id message response : string)
  : Sqlite.DB Env unit :=
  (Sqlite.execute_insert "user" message model_used session_id ;;;
   Sqlite.execute_insert "assistant" response model_used session_id ;;;
   Sqlite.commit)%action.

(** The first [try] of [chat]: the response is what [complete] returns,
    or the error text when it raises. *)
Definition respond (message : string) : T -> string * T :=
  catch (ai_complete message) (fun e => (AIClient.ERROR_PREFIX ++ str e)%string).

(** [chat(self, session_id, message) -> str] *)
Definition chat (session_id message : string) (self : t) : string * t :=
  let (response, ai') := respond message (ai self) in
  match db self with
  | Some dm =>
      let model_used := ai_current_model_path ai' in
      let (_, dm') :=
        catch (DatabaseManager.on_db (store_turn model_used session_id message response))
              (fun _ => tt) dm in
      (response, mk ai' (Some dm'))
  | None => (response, mk ai' None)
  end.

(** [get_history(self, session_id, limit=10) -> List[Dict]] *)
Definition get_history (session_id : string) (limit : Z) (self : t)
  : list (list (string * string)) * t :=
  match db self with
  | None => ([], self)
  | Some dm =>
      let (messages, dm') :=
        catch (cur <- DatabaseManager.on_db
                        (Sqlite.execute_select_history session_id limit) ;;
               ret (Sqlite.fetchall cur))%action
              (fun _ => []) dm in
      (messages, mk (ai self) (Some dm'))
  end.

(** [clear_history(self, session_id) -> int] *)
Definition clear_history (session_id : string) (self : t) : Z * t :=
  match db self with
  | None => (0, self)
  | Some dm =>
      let (deleted_count, dm') :=
        catch (cursor <- DatabaseManager.on_db (Sqlite.execute_delete session_id) ;;
               let deleted_count := Sqlite.rowcount cursor in
               DatabaseManager.on_db Sqlite.commit ;;;
               ret deleted_count)%action
              (fun _ => 0) dm in
      (deleted_count, mk (ai self) (Some dm'))
  end.

(** [result[0] if result else 0] *)
Definition first_or_zero (result : option Z) : Z :=
  match result with Some n => n | None => 0 end.

(** [get_message_stats(self, session_id) -> Tuple[int, int]] *)
Definition get_message_stats (session_id : string) (self : t) : (Z * Z) * t :=
  match db self with
  | None => ((0, 0), self)
  | Some dm =>
      let (stats, dm') :=
        catch (total <- DatabaseManager.on_db (Sqlite.execute_count session_id) ;;
               let total_messages := first_or_zero (Sqlite.fetchone total) in
               user <- DatabaseManager.on_db (Sqlite.execute_count_user session_id) ;;
               let user_messages := first_or_zero (Sqlite.fetchone user) in
               ret (total_messages, user_messages))%action
              (fun _ => (0, 0)) dm in
      (stats, mk (ai self) (Some dm'))
  end.

(** The rows of [chat_history] as the service's connection sees them. *)
Definition history (self : t) : list Sqlite.ChatRow :=
  match db self with
  | Some dm => Sqlite.rows_of (DatabaseManager.db dm)
  | None => []
  end.

(** Whether the [try] of [chat] that stores the turn runs to its end. *)
Definition stored (session_id message : string) (self : t) : bool :=
  match db self with
  | Some dm =>
    let (response, ai') := respond message (ai self) in
    negb (raised (fst (store_turn (ai_current_model_path ai') session_id message response
                                  (DatabaseManager.db dm))))
  | None => false
  end.

(** Whether the service has a database whose connection is open. *)
Definition connected (self : t) : bool :=
  match db self with
  | Some dm => Sqlite.is_open (DatabaseManager.db dm)
  | None => false
  end.

Definition ids_within_sequence (self : t) : Prop :=
  match db self with
  | Some dm => Sqlite.ids_within_sequence (DatabaseManager.db dm)
  | None => True
  end.

End ChatService.
Arguments t Env T : clear implicits.
End ChatService.

(** ** sync.py *)

Module Sync.

(** A row of [todos] (schema in [SyncClient._setup_schema]); [completed]
    is the INTEGER column, 0 or 1. *)
Record Todo : Type := mkTodo {
  id : string;
  title : string;
  completed : Z;
  created_at : string;
  device : string
}.

(** The outside world of the sync client: the SQL functions of the
    SQLite-Sync extension, which see and may rewrite the table they manage,
    the random source behind [uuid.uuid4] and the wall clock. *)
Class Environment (Env : Type) : Type := {
  cloudsync_init : string -> Env * list Todo -> Outcome unit * (Env * list Todo);
  cloudsync_network_init : string -> Env * list Todo -> Outcome unit * (Env * list Todo);
  cloudsync_network_set_apikey : string -> Env * list Todo -> Outcome unit * (Env * list Todo);
  cloudsync_network_sync : Env * list Todo -> Outcome (list Z) * (Env * list Todo);
  cloudsync_uuid : Env * list Todo -> Outcome (list string) * (Env * list Todo);
  cloudsync_terminate : Env * list Todo -> Outcome unit * (Env * list Todo);
  uuid4 : Env -> string * Env;
  CURRENT_TIMESTAMP : Env -> string * Env
}.

Section SyncClient.
Context {Env : Type} {E : Environment Env}.

(** The open connection of a client: [todos] is the table, empty on a
    database file that is new. *)
Record Connection : Type := mkConnection {
  todos : list Todo;
  in_transaction : bool;
  env : Env
}.

Record SyncClient : Type := mkSyncClient {
  client_id : string;
  database_path : string;
  db : Connection;
  sync_enabled : bool
}.

Definition on_db {A : Type} (m : Action Connection A) : Action (Process SyncClient) A :=
  on_client (fun self =>
    let (o, c) := m (db self) in
    (o, mkSyncClient (client_id self) (database_path self) c (sync_enabled self))).

(** Read an attribute of [self]. *)
Definition attr {A : Type} (f : SyncClient -> A) : Action (Process SyncClient) A :=
  fun p => (Returned (f (client p)), p).

(** A SELECT of one of the extension's functions. *)
Definition call_extension {R : Type}
  (f : Env * list Todo -> Outcome R * (Env * list Todo)) : Action Connection R :=
  fun c =>
    let '(o, (w, table)) := f (env c, todos c) in
    (o, mkConnection table (in_transaction c) w).

Definition has_id (todo_id : string) (t : Todo) : bool := (id t =? todo_id)%string.

(** CREATE TABLE IF NOT EXISTS todos (...) *)
Definition execute_create : Action Connection unit :=
  fun c => (Returned tt, c).

(** INSERT INTO todos (id, title, device) VALUES (?, ?, ?) *)
Definition execute_insert (todo_id title device : string) : Action Connection unit :=
  fun c =>
    if existsb (has_id todo_id) (todos c)
    then (Raised (mkExn IntegrityError "UNIQUE constraint failed: todos.id"),
          mkConnection (todos c) true (env c))
    else let (t, w) := CURRENT_TIMESTAMP (env c) in
         (Returned tt,
          mkConnection (todos c ++ [mkTodo todo_id title 0 t device]) true w).

Definition set_completed (t : Todo) : Todo :=
  mkTodo (id t) (title t) 1 (created_at t) (device t).

(** UPDATE todos SET completed = 1 WHERE id = ?; yields [cursor.rowcount]. *)
Definition execute_update (todo_id : string) : Action Connection Z :=
  fun c =>
    (Returned (Z.of_nat (List.length (filter (has_id todo_id) (todos c)))),
     mkConnection (map (fun t => if has_id todo_id t then set_completed t else t) (todos c))
                  true (env c)).

(** ORDER BY created_at: text compared byte by byte, ties in table order. *)
Fixpoint insert_by_created_at (t : Todo) (l : list Todo) : list Todo :=
  match l with
  | [] => [t]
  | x :: l' => if String.leb (created_at x) (created_at t)
               then x :: insert_by_created_at t l'
               else t :: l
  end.

Definition order_by_created_at (l : list Todo) : list Todo :=
  fold_left (fun acc t => insert_by_created_at t acc) l [].


(** SELECT id, title, completed, device FROM todos ORDER BY created_at *)
Definition execute_select : Action Connection (list Todo) :=
  fun c => (Returned (order_by_created_at (todos c)), c).

(** SELECT COUNT of todos *)
Definition execute_count : Action Connection Z :=
  fun c => (Returned (Z.of_nat (List.length (todos c))), c).

Definition commit : Action Connection unit :=
  fun c => (Returned tt, mkConnection (todos c) false (env c)).

Definition set_sync_enabled (b : bool) : Action (Process SyncClient) unit :=
  on_client (fun self =>
    (Returned tt, mkSyncClient (client_id self) (database_path self) (db self) b)).

(** [_setup_schema(self)]: CREATE TABLE IF NOT EXISTS keeps a table that
    exists; only an [OperationalError] of [cloudsync_init] is caught. *)
Definition _setup_schema : Action (Process SyncClient) unit :=
  (on_db execute_create ;;;
   on_db commit ;;;
   echo "📝 Todo table created" ;;;
   try_except_only OperationalError
     (on_db (call_extension (cloudsync_init "todos")) ;;;
      set_sync_enabled true ;;;
      echo "🔄 Sync enabled for todos table")
     (fun _ => set_sync_enabled false ;;;
               echo "📱 Running in local-only mode"))%action.

(** [setup_cloud(self, connection_string, api_key)] *)
Definition setup_cloud (connection_string api_key : string)
  : Action (Process SyncClient) bool :=
  (enabled <- attr sync_enabled ;;
   if negb enabled
   then echo "❌ Sync not available" ;;; ret false
   else try_except
          (on_db (call_extension (cloudsync_network_init connection_string)) ;;;
           on_db (call_extension (cloudsync_network_set_apikey api_key)) ;;;
           echo "☁️  Connected to SQLite Cloud" ;;;
           ret true)
          (fun e => echo ("❌ Cloud setup failed: " ++ str e)%string ;;; ret false))%action.

(** [sync(self)] *)
Definition sync : Action (Process SyncClient) unit :=
  (enabled <- attr sync_enabled ;;
   if negb enabled
   then echo "❌ Sync not enabled"
   else try_except
          (rows <- on_db (call_extension cloudsync_network_sync) ;;
           let changes := match hd_error rows with Some n => n | None => 0 end in
           if 0 <? changes
           then echo ("📥 Received " ++ str_of_int changes
                        ++ " changes from other devices")%string
           else echo "🔄 Sync complete - no new changes")
          (fun e => echo ("❌ Sync failed: " ++ str e)%string))%action.

Definition fallback_uuid : Action (Process SyncClient) string :=
  on_db (fun c => let (u, w) := uuid4 (env c) in
                  (Returned u, mkConnection (todos c) (in_transaction c) w)).

(** [_get_uuid(self)]: [fetchone()[0]] raises on an empty result, and the
    bare [except] falls through to the fallback. *)
Definition _get_uuid : Action (Process SyncClient) string :=
  (enabled <- attr sync_enabled ;;
   if enabled
   then try_except
          (rows <- on_db (call_extension cloudsync_uuid) ;;
           match hd_error rows with
           | Some u => ret u
           | None => raise (mkExn TypeError "'NoneType' object is not subscriptable")
           end)
          (fun _ => fallback_uuid)
   else fallback_uuid)%action.

(** [add_todo(self, title)] *)
Definition add_todo (title : string) : Action (Process SyncClient) string :=
  (todo_id <- _get_uuid ;;
   device <- attr client_id ;;
   on_db (execute_insert todo_id title device) ;;;
   on_db commit ;;;
   echo ("➕ Added: " ++ title)%string ;;;
   ret todo_id)%action.

(** [complete_todo(self, todo_id)] *)
Definition complete_todo (todo_id : string) : Action (Process SyncClient) unit :=
  (rowcount <- on_db (execute_update todo_id) ;;
   if 0 <? rowcount
   then on_db commit ;;; echo "✅ Todo completed!"
   else echo "❌ Todo not found")%action.

Definition todo_lines (self_id : string) (t : Todo) : list (Stream * string) :=
  let status := if completed t =? 0 then "⭕" else "✅" in
  let device_info :=
    if (device t =? self_id)%string then "" else (" (from " ++ device t ++ ")")%string in
  [ (stdout, ("   " ++ status ++ " " ++ title t ++ device_info)%string);
    (stdout, ("      ID: " ++ substring 0 8 (id t))%string) ].

Definition echo_all (lines : list (Stream * string)) : Action (Process SyncClient) unit :=
  fun p => (Returned tt, mkProcess (client p) (console p ++ lines)).

(** [list_todos(self)]: [None] when there is nothing to list. *)
Definition list_todos : Action (Process SyncClient) (option (list Todo)) :=
  (rows <- on_db execute_select ;;
   match rows with
   | [] => echo "📝 No todos yet" ;;; ret None
   | _ =>
     self_id <- attr client_id ;;
     echo (NL ++ "📋 Your Todos:")%string ;;;
     echo_all (flat_map (todo_lines self_id) rows) ;;;
     echo "" ;;;
     ret (Some rows)
   end)%action.

(** [show_status(self)] *)
Definition show_status : Action (Process SyncClient) unit :=
  (todo_count <- on_db execute_count ;;
   self_id <- attr client_id ;;
   enabled <- attr sync_enabled ;;
   echo (NL ++ "📱 Device: " ++ self_id)%string ;;;
   echo ("📝 Todos: " ++ str_of_int todo_count)%string ;;;
   echo ("🔄 Sync: " ++ (if enabled : bool then "Enabled" else "Local only"))%string ;;;
   echo "")%action.

(** [close(self)], up to the closing of the connection, after which the
    client is gone. *)
Definition close : Action (Process SyncClient) unit :=
  (enabled <- attr sync_enabled ;;
   if enabled
   then try_except (on_db (call_extension cloudsync_terminate)) (fun _ => ret tt)
   else ret tt)%action.

(** The methods of the class that work on the database. *)
Inductive Operation : Type :=
| SetupSchema
| SetupCloud (connection_string api_key : string)
| DoSync
| GetUuid
| AddTodo (title : string)
| CompleteTodo (todo_id : string)
| ListTodos
| ShowStatus
| Close.

Definition discard {S A : Type} (m : Action S A) : Action S unit :=
  bind m (fun _ => ret tt).

Definition perform (op : Operation) : Action (Process SyncClient) unit :=
  match op with
  | SetupSchema => _setup_schema
  | SetupCloud u k => discard (setup_cloud u k)
  | DoSync => sync
  | GetUuid => discard _get_uuid
  | AddTodo title => discard (add_todo title)
  | CompleteTodo todo_id => complete_todo todo_id
  | ListTodos => discard list_todos
  | ShowStatus => show_status
  | Close => close
  end.

(** The table of the client a process works on. *)
Definition table (p : Process SyncClient) : list Todo := todos (db (client p)).

(** A call of the extension keeps the rows when every id in the table
    before it is in the table after it. *)
Definition keeps_rows {R : Type}
  (f : Env * list Todo -> Outcome R * (Env * list Todo)) : Prop :=
  forall w rows, incl (map id rows) (map id (snd (snd (f (w, rows))))).

(** An action never deletes when every id in the table before it is in
    the table after it. *)
Definition never_deletes {A : Type} (m : Action (Process SyncClient) A) : Prop :=
  forall p, incl (map id (table p)) (map id (table (snd (m p)))).

Definition statement_never_deletes {A : Type} (m : Action Connection A) : Prop :=
  forall c, incl (map id (todos c)) (map id (todos (snd (m c)))).

(** The extension never removes a todo. *)
Definition extension_keeps_rows : Prop :=
  (forall table_name, keeps_rows (cloudsync_init table_name))
  /\ (forall url, keeps_rows (cloudsync_network_init url))
  /\ (forall key, keeps_rows (cloudsync_network_set_apikey key))
  /\ keeps_rows cloudsync_network_sync
  /\ keeps_rows cloudsync_uuid
  /\ keeps_rows cloudsync_terminate.

(** *** The interactive shell of sync.py

    The tokenizer of [interactive_mode]: a quote switches quoting on or off
    and is dropped, a space outside quotes ends the current part, which is
    kept when it is not empty, and any other character joins the current
    part.  Strings are byte strings here; the quote and the space are ASCII,
    so no byte of another character is taken for one of them. *)

Definition QUOTE : ascii := ascii_of_nat 34.
Definition SPACE : ascii := ascii_of_nat 32.

(** The characters of a string, as the [for char in cmd_input] meets them. *)
Definition chars (s : string) : Datatypes.list ascii := list_ascii_of_string s.

Record Lexer : Type := mkLexer {
  cmd_parts : Datatypes.list string;
  current_part : string;
  in_quotes : bool
}.

Definition lex_char (st : Lexer) (char : ascii) : Lexer :=
  if (char =? QUOTE)%char && negb (in_quotes st)
  then mkLexer (cmd_parts st) (current_part st) true
  else if (char =? QUOTE)%char && in_quotes st
  then mkLexer (cmd_parts st) (current_part st) false
  else if (char =? SPACE)%char && negb (in_quotes st)
  then (if truthy (current_part st)
        then mkLexer (cmd_parts st ++ [current_part st]) "" (in_quotes st)
        else st)
  else mkLexer (cmd_parts st) (current_part st ++ String char "")%string (in_quotes st).

Definition lex (cmd_input : string) : Lexer :=
  fold_left lex_char (chars cmd_input) (mkLexer [] "" false).

(** From [cmd_parts = []] to the last [cmd_parts.append(current_part)]. *)
Definition parse_command (cmd_input : string) : Datatypes.list string :=
  let st := lex cmd_input in
  if truthy (current_part st) then cmd_parts st ++ [current_part st] else cmd_parts st.

(** What an iteration of the loop ends in. *)
Inductive Next : Type := Continue | Break.

Definition UNKNOWN_COMMAND : string :=
  "❓ Unknown command. Try: add, list, complete, sync, status, cloud, quit".

Definition is_quit (cmd : string) : bool :=
  (cmd =? "quit")%string || (cmd =? "exit")%string || (cmd =? "q")%string.

(** The [if]/[elif] chain on [cmd_parts], which is not empty. *)
Definition dispatch (parts : Datatypes.list string) : Action (Process SyncClient) Next :=
  let cmd := nth 0 parts "" in
  let len := Z.of_nat (List.length parts) in
  (if is_quit cmd then ret Break
   else if (cmd =? "add")%string && (1 <? len)
   then add_todo (String.concat " " (tl parts)) ;;; ret Continue
   else if (cmd =? "list")%string
   then list_todos ;;; ret Continue
   else if (cmd =? "complete")%string && (1 <? len)
   then complete_todo (nth 1 parts "") ;;; ret Continue
   else if (cmd =? "sync")%string
   then sync ;;; ret Continue
   else if (cmd =? "status")%string
   then show_status ;;; ret Continue
   else if (cmd =? "cloud")%string && (3 <=? len)
   then setup_cloud (nth 1 parts "") (nth 2 parts "") ;;; ret Continue
   else echo UNKNOWN_COMMAND ;;; ret Continue)%action.

(** One iteration of the [while True] of [interactive_mode], from the
    stripped line the prompt returned: the [try] with its
    [except Exception]. *)
Definition handle_line (cmd_input : string) : Action (Process SyncClient) Next :=
  try_except
    (if negb (truthy cmd_input) then ret Continue
     else match parse_command cmd_input with
          | [] => ret Continue
          | parts => dispatch parts
          end)
    (fun e => echo ("❌ Error: " ++ str e)%string ;;; ret Continue)%action.

(** *** The command-line interface of sync.py

    The module-level [client] is [None] until the group callback has
    constructed a [SyncClient]. *)

Definition NOT_STARTED : string := "❌ Please start the client first".

Definition started {A : Type} (m : Action (Process SyncClient) A)
  : Action (Process (option SyncClient)) unit :=
  fun p =>
    match client p with
    | None => echo_to stderr NOT_STARTED p
    | Some c =>
      let (o, q) := m (mkProcess c (console p)) in
      (match o with Returned _ => Returned tt | Raised e => Raised e end,
       mkProcess (Some (client q)) (console q))
    end.

Definition add (title : string) := started (add_todo title).
Definition list := started list_todos.
Definition complete (todo_id : string) := started (complete_todo todo_id).
Definition sync_command := started sync.
Definition status := started show_status.
Definition cloud (connection_string api_key : string) :=
  started (setup_cloud connection_string api_key).

Inductive Subcommand : Type :=
| Add (title : string)
| List
| Complete (todo_id : string)
| SyncNow
| Status
| Cloud (connection_string api_key : string).

Definition invoke (c : Subcommand) : Action (Process (option SyncClient)) unit :=
  match c with
  | Add title => add title
  | List => list
  | Complete todo_id => complete todo_id
  | SyncNow => sync_command
  | Status => status
  | Cloud u k => cloud u k
  end.

End SyncClient.

Arguments Connection Env : clear implicits.
Arguments SyncClient Env : clear implicits.

End Sync.

(** ** cli.py of the chatbot

    The module-level [client] is [None] until the group callback has
    constructed an [AIClient].  Of the methods the subcommands call, the
    class has [load_model] only. *)

Module Cli.
Section Cli.
Context {Env : Type} {E : Environment Env}.

Definition NOT_STARTED : string := "❌ Please start the chatbot first".

Definition no_attribute (name : string) : Exn :=
  mkExn AttributeError ("'AIClient' object has no attribute '" ++ name ++ "'")%string.

Definition started (m : Action (AIClient.t Env) unit)
  : Action (Process (option (AIClient.t Env))) unit :=
  fun p =>
    match client p with
    | None => echo_to stderr NOT_STARTED p
    | Some c => let (o, c') := m c in (o, mkProcess (Some c') (console p))
    end.

Definition chat (message : string) := started (raise (no_attribute "chat")).
Definition history := started (raise (no_attribute "show_history")).
Definition clear := started (raise (no_attribute "clear_history")).
Definition load (model_path : string) :=
  started (bind (AIClient.load_model model_path) (fun _ => ret tt)).
Definition status := started (raise (no_attribute "show_status")).

Inductive Subcommand : Type :=
| Chat (message : string)
| History
| Clear
| Load (model_path : string)
| Status.

Definition invoke (c : Subcommand) : Action (Process (option (AIClient.t Env))) unit :=
  match c with
  | Chat message => chat message
  | History => history
  | Clear => clear
  | Load model_path => load model_path
  | Status => status
  end.

(** What running part of the program ends in: control goes on, or
    [sys.exit(code)]. *)
Inductive Ran : Type := Proceeds | Exits (code : Z).

(** The group callback [cli(ctx, client_id, model_path, interactive)].
    [AIClient(client_id)] hands the client id to the first parameter of the
    constructor, the database path.  The module-level [client] is assigned
    as soon as the constructor returns. *)
Definition cli (connect : string -> Outcome (Sqlite.Connection Env)) (uuid : string)
  (client_id : string) (model_path : option string) (interactive : bool)
  (invoked_subcommand : option Subcommand)
  : Process (option (AIClient.t Env)) -> Ran * Process (option (AIClient.t Env)) :=
  fun p =>
    let failed (e : Exn) (q : Process (option (AIClient.t Env))) :=
      (Exits 1, snd (echo ("❌ Failed to start chatbot: " ++ str e)%string q)) in
    match AIClient.init connect uuid client_id None with
    | Raised e => failed e p
    | Returned c =>
      let c1 := if truthy_opt model_path
                then snd (AIClient.load_model
                            (match model_path with Some m => m | None => "" end) c)
                else c in
      let p1 := mkProcess (Some c1) (console p) in
      if interactive || match invoked_subcommand with None => true | Some _ => false end
      then failed (no_attribute "interactive_mode") p1
      else (Proceeds, p1)
    end.

(** The program [cli()]: the group callback, then the subcommand when one
    was given; the exit status is 0 when the callbacks return, the code of
    [sys.exit], or 1 when an exception escapes. *)
Definition main (connect : string -> Outcome (Sqlite.Connection Env)) (uuid : string)
  (client_id : string) (model_path : option string) (interactive : bool)
  (invoked_subcommand : option Subcommand)
  : Z * Process (option (AIClient.t Env)) :=
  match cli connect uuid client_id model_path interactive invoked_subcommand
            (mkProcess None []) with
  | (Exits code, p) => (code, p)
  | (Proceeds, p) =>
    match invoked_subcommand with
    | Some c => let (o, q) := invoke c p in (exit_code o, q)
    | None => (0, p)
    end
  end.

End Cli.
End Cli.

(** ** Two concrete worlds to run the services in

    In both, the state of the world is the number of clock readings so far
    and the only file is ./models/llama.gguf. *)

Module Worlds.

Definition clock (n : nat) : string :=
  ("2024-01-01 00:00:0" ++ String (ascii_of_nat (48 + Nat.modulo n 10)) "")%string.

Definition files (p : string) : bool := (p =? "./models/llama.gguf")%string.

(** The extension was never loaded: SQLite knows no [llm_] function. *)
Inductive Offline : Type := offline (ticks : nat).

#[export] Instance no_extension : Environment Offline := {
  llm_model_load := fun _ w =>
    (Raised (mkExn OperationalError "no such function: llm_model_load"), w);
  llm_text_generate := fun _ w =>
    (Raised (mkExn OperationalError "no such function: llm_text_generate"), w);
  CURRENT_TIMESTAMP := fun '(offline n) => (clock n, offline (S n));
  os_path_exists := fun _ => files
}.

(** An extension that answers every prompt by quoting it, and answers the
    prompt "" with the empty text. *)
Inductive Echo : Type := echoing (ticks : nat).

#[export] Instance echo_extension : Environment Echo := {
  llm_model_load := fun _ w => (Returned [None], w);
  llm_text_generate := fun prompt w =>
    (Returned [Some (if (prompt =? "")%string then "" else "You said: " ++ prompt)%string], w);
  CURRENT_TIMESTAMP := fun '(echoing n) => (clock n, echoing (S n));
  os_path_exists := fun _ => files
}.

Section Fixtures.
Context {Env : Type} {E : Environment Env}.
Variable world : Env.

Definition a_connection (table : option (list Sqlite.ChatRow)) (seq : Z)
  : Sqlite.Connection Env :=
  Sqlite.mkConnection true table seq false [] world.

Definition a_client (model : option string) : AIClient.t Env :=
  AIClient.mk "demo" (DatabaseManager.mk None (a_connection None 0)) model.

Definition a_service (model : option string) (table : option (list Sqlite.ChatRow))
  (seq : Z) : ChatService.t Env (AIClient.t Env) :=
  ChatService.mk (a_client model) (Some (DatabaseManager.mk None (a_connection table seq))).

End Fixtures.

Definition LLAMA : string := "./models/llama.gguf".

(** One turn of session "a" and one of session "b". *)
Definition two_sessions : list Sqlite.ChatRow :=
  [ Sqlite.mkChatRow 1 "user" "hi" None "2024-01-01 00:00:00" "a";
    Sqlite.mkChatRow 2 "assistant" "hello" None "2024-01-01 00:00:01" "a";
    Sqlite.mkChatRow 3 "user" "yo" None "2024-01-01 00:00:02" "b";
    Sqlite.mkChatRow 4 "assistant" "hey" None "2024-01-01 00:00:03" "b" ].

(** A device without the SQLite-Sync extension (local-only mode), and one
    whose extension delivers the todos waiting in the cloud on each sync.
    The fallback ids are made from the number of draws so far. *)
Definition uuid_of (draws : nat) : string :=
  ("0000000" ++ String (ascii_of_nat (48 + Nat.modulo draws 10)) "-0000-4000-8000-000000000000")%string.

Inductive Device : Type := device (ticks draws : nat).

Definition no_such_function {R S : Type} (name : string) (s : S) : Outcome R * S :=
  (Raised (mkExn OperationalError ("no such function: " ++ name)%string), s).

#[export] Instance local_only : Sync.Environment Device := {
  Sync.cloudsync_init := fun _ => no_such_function "cloudsync_init";
  Sync.cloudsync_network_init := fun _ => no_such_function "cloudsync_network_init";
  Sync.cloudsync_network_set_apikey := fun _ => no_such_function "cloudsync_network_set_apikey";
  Sync.cloudsync_network_sync := no_such_function "cloudsync_network_sync";
  Sync.cloudsync_uuid := no_such_function "cloudsync_uuid";
  Sync.cloudsync_terminate := no_such_function "cloudsync_terminate";
  Sync.uuid4 := fun '(device t d) => (uuid_of d, device t (S d));
  Sync.CURRENT_TIMESTAMP := fun '(device t d) => (clock t, device (S t) d)
}.

Inductive Cloud : Type := cloud (ticks draws : nat) (waiting : list Sync.Todo).

#[export] Instance cloud_synced : Sync.Environment Cloud := {
  Sync.cloudsync_init := fun _ s => (Returned tt, s);
  Sync.cloudsync_network_init := fun _ s => (Returned tt, s);
  Sync.cloudsync_network_set_apikey := fun _ s => (Returned tt, s);
  Sync.cloudsync_network_sync := fun '(cloud t d waiting, rows) =>
    (Returned [Z.of_nat (List.length waiting)], (cloud t d [], rows ++ waiting));
  Sync.cloudsync_uuid := fun '(cloud t d waiting, rows) =>
    (Returned [("c" ++ uuid_of d)%string], (cloud t (S d) waiting, rows));
  Sync.cloudsync_terminate := fun s => (Returned tt, s);
  Sync.uuid4 := fun '(cloud t d waiting) => (uuid_of d, cloud t (S d) waiting);
  Sync.CURRENT_TIMESTAMP := fun '(cloud t d waiting) => (clock t, cloud (S t) d waiting)
}.

Definition learn : Sync.Todo :=
  Sync.mkTodo "a1" "Learn SQLite-Sync" 0 "2024-01-01 00:00:00" "device-a".
Definition build : Sync.Todo :=
  Sync.mkTodo "a2" "Build awesome app" 0 "2024-01-01 00:00:01" "device-a".
Definition review : Sync.Todo :=
  Sync.mkTodo "b1" "Review sync demo" 0 "2024-01-01 00:00:02" "device-b".

(** Device B, holding its own todo, with the todos of device A waiting. *)
Definition device_b : Process (Sync.SyncClient Cloud) :=
  mkProcess
    (Sync.mkSyncClient "device-b" "./data/tutorial.db"
       (Sync.mkConnection [review] false (cloud 3 0 [learn; build])) true)
    [].

(** Device A in local-only mode, holding its two todos. *)
Definition device_a : Process (Sync.SyncClient Device) :=
  mkProcess
    (Sync.mkSyncClient "device-a" "./data/tutorial.db"
       (Sync.mkConnection [learn; build] false (device 2 0)) false)
    [].

End Worlds.


(** * Properties *)

Import Worlds.

(** Unfold the plumbing of actions. *)
Ltac unfold_actions :=
  unfold catch, try_except, bind, ret, raise, on_client, echo, echo_to in *.

(** Reduce the projections of a connection that is written out. *)
Ltac conn_simpl :=
  cbn [Sqlite.is_open Sqlite.chat_history Sqlite.sqlite_sequence Sqlite.in_transaction
       Sqlite.executed Sqlite.env DatabaseManager.db DatabaseManager.current_model_path
       fst snd] in *.

(** ** AIClient *)

Section AIClientFacts.
Context {Env : Type} {E : Environment Env}.

Lemma truthy_nonempty : forall s : string, truthy s = true -> s <> "".
Proof.
  intros s H ->. discriminate H.
Qed.

Lemma error_prefix_nonempty : forall m : string, (AIClient.ERROR_PREFIX ++ m)%string <> "".
Proof.
  intros m. unfold AIClient.ERROR_PREFIX. simpl. discriminate.
Qed.

Lemma first_column_or_sorry_nonempty :
  forall r, AIClient.first_column_or_sorry r <> "".
Proof.
  intros [[text|]|]; simpl; try discriminate.
  destruct (truthy text) eqn:Ht; [now apply truthy_nonempty | discriminate].
Qed.

(** [complete] never changes which model is current. *)
Lemma complete_keeps_model : forall message (self : AIClient.t Env),
  AIClient.current_model_path (snd (AIClient.complete message self))
  = AIClient.current_model_path self.
Proof.
  intros message self. unfold AIClient.complete.
  destruct (negb (truthy_opt (AIClient.current_model_path self))); [reflexivity|].
  unfold AIClient.on_database_manager, DatabaseManager.on_db. unfold_actions.
  destruct (Sqlite.execute_llm_text_generate message _) as [[cur|e] c]; reflexivity.
Qed.

(** [complete] always returns. *)
Lemma complete_returns : forall message (self : AIClient.t Env),
  exists s, fst (AIClient.complete message self) = Returned s.
Proof.
  intros message self. unfold AIClient.complete.
  destruct (negb (truthy_opt (AIClient.current_model_path self))); [now eexists|].
  unfold AIClient.on_database_manager, DatabaseManager.on_db. unfold_actions.
  destruct (Sqlite.execute_llm_text_generate message _) as [[cur|e] c]; now eexists.
Qed.


(** C3. With no model loaded ([current_model_path] is [None]), [complete]
    returns the sentinel "No model loaded. Please load a model first." and
    leaves the client as it was: nothing was executed on its connection, so
    the extension was not called. *)
Theorem complete_without_model_is_sentinel :
  forall message (self : AIClient.t Env),
    AIClient.current_model_path self = None ->
    AIClient.complete message self
      = (Returned "No model loaded. Please load a model first.", self)
    /\ AIClient.executed (snd (AIClient.complete message self)) = AIClient.executed self
    /\ filter Sqlite.is_extension_call
              (AIClient.executed (snd (AIClient.complete message self)))
       = filter Sqlite.is_extension_call (AIClient.executed self).
Proof.
  intros message self Hnone.
  assert (Hrun : AIClient.complete message self = (Returned AIClient.NO_MODEL, self)).
  { unfold AIClient.complete. rewrite Hnone. reflexivity. }
  rewrite Hrun. repeat split; reflexivity.
Qed.

(** C4. For a path that does not exist, [load_model] returns [False] and
    leaves the client as it was: no statement was executed (the extension
    was not invoked) and [current_model_path] is what it was, so still unset
    if it was unset. *)
Theorem load_model_missing_file_fails_closed :
  forall model_path (self : AIClient.t Env),
    AIClient.path_exists self model_path = false ->
    AIClient.load_model model_path self = (Returned false, self)
    /\ AIClient.executed (snd (AIClient.load_model model_path self))
       = AIClient.executed self
    /\ AIClient.current_model_path (snd (AIClient.load_model model_path self))
       = AIClient.current_model_path self
    /\ (AIClient.current_model_path self = None ->
        AIClient.current_model_path (snd (AIClient.load_model model_path self)) = None).
Proof.
  intros model_path self Hmissing.
  assert (Hrun : AIClient.load_model model_path self = (Returned false, self)).
  { unfold AIClient.load_model. rewrite Hmissing. reflexivity. }
  rewrite Hrun. repeat split; auto.
Qed.

(** C10. With a model loaded, [complete] returns, and returns a non-empty
    string: the generated text when the extension yields a non-empty one,
    the fallback "Sorry, I couldn't generate a response." when it yields no
    row, NULL or the empty text, and "Error generating response: " followed
    by the error's message when the statement raises (the extension raised,
    or the connection is closed). *)
Theorem complete_with_model_is_nonempty :
  forall message model_path (self : AIClient.t Env),
    AIClient.current_model_path self = Some model_path ->
    model_path <> "" ->
    let conn := DatabaseManager.db (AIClient.database_manager self) in
    exists s self',
      AIClient.complete message self = (Returned s, self')
      /\ s <> ""
      /\ (forall rows w,
            Sqlite.is_open conn = true ->
            llm_text_generate message (Sqlite.env conn) = (Returned rows, w) ->
            (hd_error rows = None \/ hd_error rows = Some None
             \/ hd_error rows = Some (Some "") ->
             s = "Sorry, I couldn't generate a response.")
            /\ (forall text, hd_error rows = Some (Some text) -> text <> "" -> s = text))
      /\ (forall e w,
            Sqlite.is_open conn = true ->
            llm_text_generate message (Sqlite.env conn) = (Raised e, w) ->
            s = ("Error generating response: " ++ str e)%string)
      /\ (Sqlite.is_open conn = false ->
          s = "Error generating response: Cannot operate on a closed database.").
Proof.
  intros message model_path self Hpath Hne conn.
  assert (Htruthy : truthy_opt (AIClient.current_model_path self) = true).
  { rewrite Hpath. simpl. unfold truthy.
    destruct (String.eqb_spec model_path ""); [contradiction | reflexivity]. }
  unfold AIClient.complete. rewrite Htruthy. simpl negb. cbv iota.
  unfold AIClient.on_database_manager, DatabaseManager.on_db,
    Sqlite.execute_llm_text_generate, Sqlite.prepare, Sqlite.call_extension.
  unfold_actions. fold conn.
  destruct (Sqlite.is_open conn) eqn:Hopen; cbn [Sqlite.is_open Sqlite.env].
  - destruct (llm_text_generate message (Sqlite.env conn)) as [[rows|e] w] eqn:Hgen.
    + eexists. eexists. split; [reflexivity|].
      split; [apply first_column_or_sorry_nonempty|].
      split; [|split; [intros e' w' _ Habs; discriminate Habs | intros Habs; discriminate Habs]].
      intros rows' w' _ Heq. injection Heq as <- <-.
      unfold Sqlite.fetchone. cbn [Sqlite.fetchall]. split.
      * intros [H | [H | H]]; rewrite H; reflexivity.
      * intros text H Htext. rewrite H. simpl. unfold truthy.
        destruct (String.eqb_spec text ""); [contradiction | reflexivity].
    + eexists. eexists. split; [reflexivity|].
      split; [apply error_prefix_nonempty|].
      split; [intros rows' w' _ Habs; discriminate Habs|].
      split; [|intros Habs; discriminate Habs].
      intros e' w' _ Heq. injection Heq as <- <-. reflexivity.
  - eexists. eexists. split; [reflexivity|].
    split; [apply error_prefix_nonempty|].
    split; [intros rows w Habs; discriminate Habs|].
    split; [intros e w Habs; discriminate Habs|].
    intros _. reflexivity.
Qed.

End AIClientFacts.

Lemma complete_without_model_witness :
  AIClient.current_model_path (a_client (offline 0) None) = None
  /\ AIClient.complete "Hello" (a_client (offline 0) None)
     = (Returned "No model loaded. Please load a model first.", a_client (offline 0) None).
Proof.
  split; [reflexivity|].
  apply (complete_without_model_is_sentinel "Hello" (a_client (offline 0) None)).
  reflexivity.
Defined.

Lemma load_model_missing_file_witness :
  AIClient.path_exists (a_client (echoing 0) None) "/nonexistent/model.gguf" = false
  /\ AIClient.load_model "/nonexistent/model.gguf" (a_client (echoing 0) None)
     = (Returned false, a_client (echoing 0) None).
Proof.
  split; [reflexivity|].
  apply (load_model_missing_file_fails_closed "/nonexistent/model.gguf"
           (a_client (echoing 0) None)).
  reflexivity.
Defined.

Lemma complete_with_model_witness :
  exists s self',
    AIClient.complete "" (a_client (echoing 0) (Some LLAMA)) = (Returned s, self')
    /\ s <> "".
Proof.
  destruct (complete_with_model_is_nonempty "" (a_client (echoing 0) (Some LLAMA))
              eq_refl ltac:(discriminate))
    as (s & self' & Hrun & Hne & _).
  exists s, self'. split; assumption.
Defined.

(** ** The statements on [chat_history] *)

Section SqliteFacts.
Context {Env : Type} {E : Environment Env}.

Lemma max_rowid_bounds : forall rows : list Sqlite.ChatRow,
  0 <= Sqlite.max_rowid rows
  /\ Forall (fun r => Sqlite.id r <= Sqlite.max_rowid rows) rows.
Proof.
  induction rows as [|r rows [IH0 IH]]; simpl.
  - split; [lia | constructor].
  - split; [lia|]. constructor; [lia|].
    eapply Forall_impl; [|exact IH]. simpl. intros; lia.
Qed.

Lemma max_rowid_app : forall rows (r : Sqlite.ChatRow),
  Sqlite.max_rowid (rows ++ [r]) = Z.max (Sqlite.max_rowid rows) (Z.max (Sqlite.id r) 0).
Proof.
  induction rows as [|x rows IH]; intros r; simpl.
  - lia.
  - rewrite IH. lia.
Qed.

(** What a successful INSERT did. *)
Lemma execute_insert_returned :
  forall role message model_used session_id (c c' : Sqlite.Connection Env) cur,
    Sqlite.execute_insert role message model_used session_id c = (Returned cur, c') ->
    exists rows t,
      Sqlite.chat_history c = Some rows
      /\ Sqlite.is_open c = true
      /\ Z.max (Sqlite.sqlite_sequence c) (Sqlite.max_rowid rows) < Sqlite.MAX_ROWID
      /\ Sqlite.chat_history c'
         = Some (rows ++
                 [Sqlite.mkChatRow
                    (Z.max (Sqlite.sqlite_sequence c) (Sqlite.max_rowid rows) + 1)
                    role message model_used t session_id])
      /\ Sqlite.sqlite_sequence c'
         = Z.max (Sqlite.sqlite_sequence c) (Sqlite.max_rowid rows) + 1
      /\ Sqlite.is_open c' = true.
Proof.
  intros role message model_used session_id c c' cur.
  unfold Sqlite.execute_insert, Sqlite.prepare, Sqlite.the_table, Sqlite.now,
    Sqlite.write_table.
  unfold_actions.
  destruct (Sqlite.is_open c) eqn:Hopen; conn_simpl; [|discriminate].
  destruct (Sqlite.chat_history c) as [rows|] eqn:Htable; conn_simpl; [|discriminate].
  destruct (Z.leb_spec Sqlite.MAX_ROWID
              (Z.max (Sqlite.sqlite_sequence c) (Sqlite.max_rowid rows))) as [Hfull|Hroom];
    [discriminate|].
  destruct (CURRENT_TIMESTAMP (Sqlite.env c)) as [t w] eqn:Hclock.
  intros Heq. injection Heq as <- <-. conn_simpl.
  exists rows, t. repeat split; auto.
Qed.

(** What a failed INSERT left behind: the table as it was. *)
Lemma execute_insert_raised :
  forall role message model_used session_id (c c' : Sqlite.Connection Env) e,
    Sqlite.execute_insert role message model_used session_id c = (Raised e, c') ->
    Sqlite.chat_history c' = Sqlite.chat_history c
    /\ Sqlite.sqlite_sequence c' = Sqlite.sqlite_sequence c.
Proof.
  intros role message model_used session_id c c' e.
  unfold Sqlite.execute_insert, Sqlite.prepare, Sqlite.the_table, Sqlite.now,
    Sqlite.write_table.
  unfold_actions.
  destruct (Sqlite.is_open c) eqn:Hopen; conn_simpl.
  - destruct (Sqlite.chat_history c) as [rows|] eqn:Htable; conn_simpl.
    + destruct (Z.leb_spec Sqlite.MAX_ROWID
                  (Z.max (Sqlite.sqlite_sequence c) (Sqlite.max_rowid rows))) as [Hfull|Hroom].
      * intros Heq. injection Heq as <- <-. conn_simpl. auto.
      * destruct (CURRENT_TIMESTAMP (Sqlite.env c)) as [t w]. discriminate.
    + intros Heq. injection Heq as <- <-. conn_simpl. auto.
  - intros Heq. injection Heq as <- <-. conn_simpl. auto.
Qed.

Lemma commit_keeps_table : forall (c : Sqlite.Connection Env),
  Sqlite.chat_history (snd (Sqlite.commit c)) = Sqlite.chat_history c
  /\ (Sqlite.is_open c = true -> fst (Sqlite.commit c) = Returned tt).
Proof.
  intros c. unfold Sqlite.commit. destruct (Sqlite.is_open c); cbn; auto.
  split; [reflexivity | discriminate].
Qed.


(** *** ORDER BY id DESC and LIMIT *)

Lemma in_session_iff : forall sid (r : Sqlite.ChatRow),
  Sqlite.in_session sid r = true <-> Sqlite.session_id r = sid.
Proof.
  intros sid r. unfold Sqlite.in_session. apply String.eqb_eq.
Qed.

Lemma insert_desc_in : forall r x l,
  In x (Sqlite.insert_desc r l) <-> x = r \/ In x l.
Proof.
  intros r x l. induction l as [|y l IH]; simpl.
  - intuition.
  - destruct (Sqlite.id y <=? Sqlite.id r); simpl; intuition.
Qed.

Lemma insert_desc_length : forall r l,
  List.length (Sqlite.insert_desc r l) = S (List.length l).
Proof.
  intros r l. induction l as [|y l IH]; simpl; [reflexivity|].
  destruct (Sqlite.id y <=? Sqlite.id r); simpl; congruence.
Qed.

Lemma insert_desc_sorted : forall r l,
  StronglySorted Sqlite.newer_or_same l -> StronglySorted Sqlite.newer_or_same (Sqlite.insert_desc r l).
Proof.
  intros r l Hl. induction Hl as [|y l Hl IH Hy]; simpl.
  - constructor; constructor.
  - destruct (Z.leb_spec (Sqlite.id y) (Sqlite.id r)) as [Hle|Hgt].
    + constructor; [constructor; assumption|].
      constructor; [unfold Sqlite.newer_or_same; lia|].
      eapply Forall_impl; [|exact Hy]. unfold Sqlite.newer_or_same. intros; lia.
    + constructor; [exact IH|].
      apply Forall_forall. intros x Hx. apply insert_desc_in in Hx as [->|Hx].
      * unfold Sqlite.newer_or_same; lia.
      * rewrite Forall_forall in Hy. auto.
Qed.

Lemma order_by_id_desc_in : forall x l,
  In x (Sqlite.order_by_id_desc l) <-> In x l.
Proof.
  intros x l. induction l as [|y l IH]; simpl; [tauto|].
  rewrite insert_desc_in, IH. intuition.
Qed.

Lemma order_by_id_desc_length : forall l,
  List.length (Sqlite.order_by_id_desc l) = List.length l.
Proof.
  induction l as [|y l IH]; simpl; [reflexivity|].
  now rewrite insert_desc_length, IH.
Qed.

Lemma order_by_id_desc_sorted : forall l,
  StronglySorted Sqlite.newer_or_same (Sqlite.order_by_id_desc l).
Proof.
  induction l as [|y l IH]; simpl; [constructor|].
  now apply insert_desc_sorted.
Qed.

(** A row older than all of a list goes to its end. *)
Lemma insert_desc_oldest : forall r l,
  Forall (fun x => Sqlite.id r < Sqlite.id x) l -> Sqlite.insert_desc r l = l ++ [r].
Proof.
  intros r l H. induction H as [|x l Hx _ IH]; simpl; [reflexivity|].
  destruct (Z.leb_spec (Sqlite.id x) (Sqlite.id r)); [lia|]. now rewrite IH.
Qed.

(** On rows stored by ascending id, newest first is the reverse. *)
Lemma order_by_id_desc_rev : forall l,
  StronglySorted Sqlite.older l -> Sqlite.order_by_id_desc l = rev l.
Proof.
  intros l H. induction H as [|x l _ IH Hx]; simpl; [reflexivity|].
  rewrite IH. apply insert_desc_oldest.
  apply Forall_forall. intros y Hy. apply In_rev in Hy.
  rewrite Forall_forall in Hx. apply Hx. exact Hy.
Qed.

Lemma filter_sorted : forall (R : Sqlite.ChatRow -> Sqlite.ChatRow -> Prop) p l,
  StronglySorted R l -> StronglySorted R (filter p l).
Proof.
  intros R p l H. induction H as [|x l _ IH Hx]; simpl; [constructor|].
  destruct (p x); [|exact IH]. constructor; [exact IH|].
  apply Forall_forall. intros y Hy. apply filter_In in Hy as [Hy _].
  rewrite Forall_forall in Hx. auto.
Qed.

Lemma sorted_app_inv : forall (R : Sqlite.ChatRow -> Sqlite.ChatRow -> Prop) l1 l2,
  StronglySorted R (l1 ++ l2) ->
  StronglySorted R l1 /\ forall a b, In a l1 -> In b l2 -> R a b.
Proof.
  intros R l1 l2. induction l1 as [|x l1 IH]; simpl; intros H.
  - split; [constructor | intros a b []].
  - apply StronglySorted_inv in H as [Hs Hx]. destruct (IH Hs) as [Hl1 Hcross].
    apply Forall_app in Hx as [Hx1 Hx2]. split.
    + constructor; assumption.
    + intros a b [<-|Ha] Hb.
      * rewrite Forall_forall in Hx2. auto.
      * auto.
Qed.

(** The first [k] rows of a newest-first list: still newest first, and no
    row left out is newer than a row kept. *)
Lemma firstn_newest : forall k l,
  StronglySorted Sqlite.newer_or_same l ->
  StronglySorted Sqlite.newer_or_same (firstn k l)
  /\ forall r, In r l ->
       In r (firstn k l) \/ Forall (fun s => Sqlite.id r <= Sqlite.id s) (firstn k l).
Proof.
  intros k l H. rewrite <- (firstn_skipn k l) in H.
  apply sorted_app_inv in H as [Hs Hcross]. split; [exact Hs|].
  intros r Hr. rewrite <- (firstn_skipn k l) in Hr.
  apply in_app_or in Hr as [Hr|Hr]; [left; exact Hr|right].
  apply Forall_forall. intros s Hsel. specialize (Hcross s r Hsel Hr).
  unfold Sqlite.newer_or_same in Hcross. lia.
Qed.

Lemma firstn_In : forall k (l : list Sqlite.ChatRow) r, In r (firstn k l) -> In r l.
Proof.
  intros k l r H. rewrite <- (firstn_skipn k l). apply in_or_app. now left.
Qed.

Lemma selected_spec : forall sid n rows,
  0 <= n ->
  Z.of_nat (List.length (Sqlite.selected sid n rows)) <= n
  /\ List.length (Sqlite.selected sid n rows)
     = Nat.min (Z.to_nat n) (List.length (filter (Sqlite.in_session sid) rows))
  /\ Forall (fun r => In r rows /\ Sqlite.session_id r = sid) (Sqlite.selected sid n rows)
  /\ StronglySorted Sqlite.newer_or_same (Sqlite.selected sid n rows)
  /\ (forall r, In r rows -> Sqlite.session_id r = sid ->
        In r (Sqlite.selected sid n rows)
        \/ Forall (fun s => Sqlite.id r <= Sqlite.id s) (Sqlite.selected sid n rows))
  /\ (StronglySorted Sqlite.older rows ->
      Sqlite.selected sid n rows = firstn (Z.to_nat n) (rev (filter (Sqlite.in_session sid) rows))).
Proof.
  intros sid n rows Hn. unfold Sqlite.selected, Sqlite.limit_rows.
  destruct (Z.ltb_spec n 0) as [Hneg|_]; [lia|].
  set (l := Sqlite.order_by_id_desc (filter (Sqlite.in_session sid) rows)).
  destruct (firstn_newest (Z.to_nat n) (order_by_id_desc_sorted
                                           (filter (Sqlite.in_session sid) rows)))
    as [Hsorted Hnewest]. fold l in Hsorted, Hnewest.
  split; [pose proof (firstn_le_length (Z.to_nat n) l); lia|].
  split; [rewrite length_firstn; unfold l; now rewrite order_by_id_desc_length|].
  split.
  { apply Forall_forall. intros r Hr. apply firstn_In in Hr.
    unfold l in Hr. apply -> order_by_id_desc_in in Hr. apply filter_In in Hr as [Hin Hs].
    split; [exact Hin | now apply in_session_iff]. }
  split; [exact Hsorted|]. split.
  { intros r Hin Hs. apply Hnewest. unfold l. apply <- order_by_id_desc_in.
    apply filter_In. split; [exact Hin | now apply in_session_iff]. }
  intros Hasc. unfold l. rewrite order_by_id_desc_rev; [reflexivity|].
  now apply filter_sorted.
Qed.

(** *** DELETE and COUNT *)

Lemma count_where_filter : forall p (rows : list Sqlite.ChatRow),
  Sqlite.count_where p rows = Z.of_nat (List.length (filter p rows)).
Proof.
  intros p rows. unfold Sqlite.count_where.
  assert (H : forall n, fold_left (fun n r => if p r then n + 1 else n) rows n
                        = n + Z.of_nat (List.length (filter p rows))).
  { induction rows as [|r rows IH]; intros n; simpl; [lia|].
    rewrite IH. destruct (p r); simpl List.length; lia. }
  rewrite H. lia.
Qed.

(** Deleting session [a] keeps the rows of any other session, in order. *)
Lemma filter_other_session : forall a b (rows : list Sqlite.ChatRow),
  a <> b ->
  filter (Sqlite.in_session b) (filter (fun r => negb (Sqlite.in_session a r)) rows)
  = filter (Sqlite.in_session b) rows.
Proof.
  intros a b rows Hab. induction rows as [|r rows IH]; simpl; [reflexivity|].
  destruct (Sqlite.in_session a r) eqn:Ha; simpl.
  - destruct (Sqlite.in_session b r) eqn:Hb; [|exact IH].
    apply in_session_iff in Ha, Hb. congruence.
  - destruct (Sqlite.in_session b r); now rewrite IH.
Qed.

Lemma filter_same_session : forall a (rows : list Sqlite.ChatRow),
  filter (Sqlite.in_session a) (filter (fun r => negb (Sqlite.in_session a r)) rows) = [].
Proof.
  intros a rows. induction rows as [|r rows IH]; simpl; [reflexivity|].
  destruct (Sqlite.in_session a r) eqn:Ha; simpl; [exact IH|].
  now rewrite Ha.
Qed.

(** *** Rows stay in insertion order *)

Lemma sorted_snoc : forall (rows : list Sqlite.ChatRow) r,
  StronglySorted Sqlite.older rows ->
  Forall (fun x => Sqlite.id x < Sqlite.id r) rows ->
  StronglySorted Sqlite.older (rows ++ [r]).
Proof.
  intros rows r Hs Hr. induction Hs as [|x rows _ IH Hx]; simpl.
  - constructor; constructor.
  - apply Forall_cons_iff in Hr as [Hxr Hr]. constructor; [now apply IH|].
    apply Forall_app. split; [exact Hx|]. constructor; [exact Hxr | constructor].
Qed.

Lemma execute_insert_keeps_order :
  forall role message model_used session_id (c : Sqlite.Connection Env),
    StronglySorted Sqlite.older (Sqlite.rows_of c) ->
    StronglySorted Sqlite.older
      (Sqlite.rows_of (snd (Sqlite.execute_insert role message model_used session_id c))).
Proof.
  intros role message model_used session_id c Hs.
  destruct (Sqlite.execute_insert role message model_used session_id c)
    as [[cur|e] c'] eqn:Hrun; cbn [snd].
  - apply execute_insert_returned in Hrun as (rows & t & Htable & _ & _ & Htable' & _ & _).
    unfold Sqlite.rows_of in *. rewrite Htable in Hs. rewrite Htable'.
    apply sorted_snoc; [exact Hs|].
    destruct (max_rowid_bounds rows) as [_ Hbound].
    eapply Forall_impl; [|exact Hbound]. cbn [Sqlite.id]. intros; lia.
  - apply execute_insert_raised in Hrun as [Htable _].
    unfold Sqlite.rows_of in *. now rewrite Htable.
Qed.

End SqliteFacts.

(** ** ChatService *)

Section ChatServiceFacts.
Context {Env : Type} {E : Environment Env} {T : Type} {A : AI T}.

(** [chat], with its two steps spelled out. *)
Lemma chat_eq : forall session_id message (self : ChatService.t Env T),
  ChatService.chat session_id message self
  = (fst (ChatService.respond message (ChatService.ai self)),
     ChatService.mk
       (snd (ChatService.respond message (ChatService.ai self)))
       (option_map
          (fun dm =>
             DatabaseManager.mk
               (DatabaseManager.current_model_path dm)
               (snd (ChatService.store_turn
                       (ai_current_model_path (snd (ChatService.respond message (ChatService.ai self))))
                       session_id message
                       (fst (ChatService.respond message (ChatService.ai self)))
                       (DatabaseManager.db dm))))
          (ChatService.db self))).
Proof.
  intros session_id message self. unfold ChatService.chat.
  destruct (ChatService.respond message (ChatService.ai self)) as [response ai'].
  cbn [fst snd]. destruct (ChatService.db self) as [dm|]; [|reflexivity].
  unfold catch, DatabaseManager.on_db. cbn [option_map].
  destruct (ChatService.store_turn _ _ _ _ _) as [[u|e] c]; reflexivity.
Qed.

(** A turn that was stored appended the user row and then the assistant row,
    with the next two row ids. *)
Lemma store_turn_returned :
  forall model_used session_id message response (c c' : Sqlite.Connection Env),
    ChatService.store_turn model_used session_id message response c = (Returned tt, c') ->
    exists rows i t1 t2,
      Sqlite.chat_history c = Some rows
      /\ Forall (fun r => Sqlite.id r < i) rows
      /\ Sqlite.chat_history c'
         = Some (rows ++
                 [ Sqlite.mkChatRow i "user" message model_used t1 session_id;
                   Sqlite.mkChatRow (i + 1) "assistant" response model_used t2 session_id ]).
Proof.
  intros model_used session_id message response c c'.
  unfold ChatService.store_turn. unfold_actions.
  destruct (Sqlite.execute_insert "user" message model_used session_id c)
    as [[cur1|e1] c1] eqn:H1; [|discriminate].
  destruct (Sqlite.execute_insert "assistant" response model_used session_id c1)
    as [[cur2|e2] c2] eqn:H2; [|discriminate].
  intros Hcommit.
  apply execute_insert_returned in H1 as (rows & t1 & Htable & _ & _ & Htable1 & Hseq1 & _).
  apply execute_insert_returned in H2 as (rows1 & t2 & Htable1' & _ & _ & Htable2 & _ & _).
  rewrite Htable1 in Htable1'. injection Htable1' as <-.
  destruct (max_rowid_bounds rows) as [Hnonneg Hbound].
  set (i := Z.max (Sqlite.sqlite_sequence c) (Sqlite.max_rowid rows) + 1) in *.
  assert (Hnext : Z.max (Sqlite.sqlite_sequence c1)
                        (Sqlite.max_rowid
                           (rows ++ [Sqlite.mkChatRow i "user" message model_used t1 session_id]))
                  + 1 = i + 1).
  { rewrite Hseq1, max_rowid_app. cbn [Sqlite.id]. subst i. lia. }
  rewrite Hnext in Htable2.
  exists rows, i, t1, t2. split; [exact Htable|]. split.
  - eapply Forall_impl; [|exact Hbound]. cbn beta. intros r Hr. subst i. lia.
  - pose proof (commit_keeps_table c2) as [Hkeep _].
    rewrite Hcommit in Hkeep. cbn [snd] in Hkeep.
    rewrite Hkeep, Htable2, <- app_assoc. reflexivity.
Qed.

(** [get_history], by the state of the connection. *)
Lemma get_history_eq : forall session_id limit (self : ChatService.t Env T),
  fst (ChatService.get_history session_id limit self)
  = match ChatService.db self with
    | None => []
    | Some dm =>
      if Sqlite.is_open (DatabaseManager.db dm)
      then match Sqlite.chat_history (DatabaseManager.db dm) with
           | Some rows =>
             if (limit <? Sqlite.MIN_INT64) || (Sqlite.MAX_ROWID <? limit)
             then []
             else map Sqlite.history_row (Sqlite.selected session_id limit rows)
           | None => []
           end
      else []
    end.
Proof.
  intros session_id limit self. unfold ChatService.get_history.
  destruct (ChatService.db self) as [dm|]; [|reflexivity].
  unfold DatabaseManager.on_db, Sqlite.execute_select_history, Sqlite.prepare,
    Sqlite.the_table.
  unfold_actions.
  destruct (Sqlite.is_open (DatabaseManager.db dm)); conn_simpl; [|reflexivity].
  destruct (Sqlite.chat_history (DatabaseManager.db dm)) as [rows|]; [|reflexivity].
  destruct ((limit <? Sqlite.MIN_INT64) || (Sqlite.MAX_ROWID <? limit)); reflexivity.
Qed.

(** C2. For a non-negative limit [n], [get_history] returns the messages of
    at most [n] rows of the table, all of the asked session, newest first (by
    descending row id), and no row of the session that is left out is newer
    than one returned.  When the query succeeds the result is as long as the
    limit and the session allow, and on a table stored in insertion order (by
    ascending id) it is the first [n] of the session's rows read backwards. *)
Theorem get_history_newest_first_within_limit :
  forall session_id n (self : ChatService.t Env T),
    0 <= n ->
    exists sel,
      fst (ChatService.get_history session_id n self) = map Sqlite.history_row sel
      /\ Z.of_nat (List.length sel) <= n
      /\ Forall (fun r => In r (ChatService.history self)
                          /\ Sqlite.session_id r = session_id) sel
      /\ StronglySorted (fun a b => Sqlite.id a >= Sqlite.id b) sel
      /\ (forall r, In r (ChatService.history self) ->
                    Sqlite.session_id r = session_id ->
                    In r sel \/ Forall (fun s => Sqlite.id r <= Sqlite.id s) sel)
      /\ (forall dm,
            ChatService.db self = Some dm ->
            Sqlite.is_open (DatabaseManager.db dm) = true ->
            n <= Sqlite.MAX_ROWID ->
            List.length sel
            = Nat.min (Z.to_nat n)
                      (List.length (filter (Sqlite.in_session session_id)
                                           (ChatService.history self)))
            /\ (StronglySorted (fun a b => Sqlite.id a < Sqlite.id b)
                               (ChatService.history self) ->
                sel = firstn (Z.to_nat n)
                             (rev (filter (Sqlite.in_session session_id)
                                          (ChatService.history self))))).
Proof.
  intros session_id n self Hn. rewrite get_history_eq. unfold ChatService.history.
  assert (Hnone : forall P : list Sqlite.ChatRow -> Prop, P [] ->
            exists sel,
              @nil (list (string * string)) = map Sqlite.history_row sel
              /\ Z.of_nat (List.length sel) <= n
              /\ Forall (fun r => In r (match ChatService.db self with
                                        | Some dm => Sqlite.rows_of (DatabaseManager.db dm)
                                        | None => []
                                        end)
                                  /\ Sqlite.session_id r = session_id) sel
              /\ StronglySorted (fun a b => Sqlite.id a >= Sqlite.id b) sel
              /\ (forall r, In r (match ChatService.db self with
                                  | Some dm => Sqlite.rows_of (DatabaseManager.db dm)
                                  | None => []
                                  end) ->
                            Sqlite.session_id r = session_id ->
                            In r sel \/ Forall (fun s => Sqlite.id r <= Sqlite.id s) sel)
              /\ P sel).
  { intros P HP. exists []. split; [reflexivity|]. split; [simpl; lia|].
    split; [constructor|]. split; [constructor|].
    split; [intros; right; constructor | exact HP]. }
  destruct (ChatService.db self) as [dm|] eqn:Hdb.
  2:{ apply Hnone. intros dm Habs. discriminate Habs. }
  unfold Sqlite.rows_of in *.
  destruct (Sqlite.is_open (DatabaseManager.db dm)) eqn:Hopen.
  2:{ apply Hnone. intros dm' Hdm Habs. injection Hdm as <-. congruence. }
  destruct (Sqlite.chat_history (DatabaseManager.db dm)) as [rows|] eqn:Htable.
  2:{ apply Hnone. intros dm' Hdm _ _. simpl.
      rewrite Nat.min_0_r, firstn_nil. split; reflexivity. }
  destruct (selected_spec session_id rows Hn)
    as (Hlen & Hmin & Hall & Hsorted & Hnewest & Hrev).
  destruct (Z.ltb_spec n Sqlite.MIN_INT64) as [Hlow|_];
    [unfold Sqlite.MIN_INT64 in Hlow; lia|]. cbn [orb].
  destruct (Z.ltb_spec Sqlite.MAX_ROWID n) as [Hbig|Hfits].
  - apply Hnone. intros dm' _ _ Habs. lia.
  - exists (Sqlite.selected session_id n rows).
    split; [reflexivity|]. split; [exact Hlen|]. split; [exact Hall|].
    split; [exact Hsorted|]. split; [exact Hnewest|].
    intros dm' Hdm _ _. split; [exact Hmin | exact Hrev].
Qed.

(** [clear_history], by the state of the connection. *)
Lemma clear_history_eq : forall session_id (self : ChatService.t Env T),
  fst (ChatService.clear_history session_id self)
  = match ChatService.db self with
    | None => 0
    | Some dm =>
      if Sqlite.is_open (DatabaseManager.db dm)
      then match Sqlite.chat_history (DatabaseManager.db dm) with
           | Some rows =>
             Z.of_nat (List.length (filter (Sqlite.in_session session_id) rows))
           | None => 0
           end
      else 0
    end
  /\ ChatService.history (snd (ChatService.clear_history session_id self))
     = if match ChatService.db self with
          | Some dm => Sqlite.is_open (DatabaseManager.db dm)
          | None => false
          end
       then filter (fun r => negb (Sqlite.in_session session_id r))
                   (ChatService.history self)
       else ChatService.history self.
Proof.
  intros session_id self. unfold ChatService.clear_history, ChatService.history.
  destruct (ChatService.db self) as [dm|] eqn:Hdb;
    [|cbn [fst snd]; rewrite Hdb; split; reflexivity].
  unfold DatabaseManager.on_db, Sqlite.execute_delete, Sqlite.prepare,
    Sqlite.the_table, Sqlite.commit, Sqlite.rows_of.
  unfold_actions. cbn [DatabaseManager.db DatabaseManager.current_model_path].
  destruct (Sqlite.is_open (DatabaseManager.db dm)) eqn:Hopen; conn_simpl.
  - destruct (Sqlite.chat_history (DatabaseManager.db dm)) as [rows|] eqn:Htable;
      cbn [fst snd ChatService.db DatabaseManager.db Sqlite.rowcount]; conn_simpl.
    + split; reflexivity.
    + split; reflexivity.
  - cbn [fst snd ChatService.db DatabaseManager.db]. conn_simpl. split; reflexivity.
Qed.

(** C5. For distinct sessions [a] and [b], [clear_history a] leaves the rows
    of [b] as they were, takes no row that is not of session [a] and adds
    none, and returns the number of rows it deleted; when the connection is
    open no row of [a] is left. *)
Theorem clear_history_session_isolation :
  forall a b (self : ChatService.t Env T),
    a <> b ->
    let before := ChatService.history self in
    let after := ChatService.history (snd (ChatService.clear_history a self)) in
    filter (Sqlite.in_session b) after = filter (Sqlite.in_session b) before
    /\ (forall r, In r before -> ~ In r after -> Sqlite.session_id r = a)
    /\ (forall r, In r after -> In r before)
    /\ fst (ChatService.clear_history a self)
       = Z.of_nat (List.length before) - Z.of_nat (List.length after)
    /\ (forall dm, ChatService.db self = Some dm ->
                   Sqlite.is_open (DatabaseManager.db dm) = true ->
                   filter (Sqlite.in_session a) after = []).
Proof.
  intros a b self Hab before after.
  destruct (clear_history_eq a self) as [Hcount Hafter].
  fold after in Hafter. fold before in Hafter.
  assert (Hbefore : before = match ChatService.db self with
                             | Some dm => Sqlite.rows_of (DatabaseManager.db dm)
                             | None => []
                             end) by reflexivity.
  destruct (ChatService.db self) as [dm|] eqn:Hdb.
  2:{ rewrite Hafter, Hcount, Hbefore. repeat split; auto; try contradiction;
        try (intros dm Habs; discriminate Habs). }
  destruct (Sqlite.is_open (DatabaseManager.db dm)) eqn:Hopen.
  2:{ rewrite Hafter, Hcount. repeat split; auto; try contradiction; try lia;
        try (intros dm' Hdm Habs; injection Hdm as <-; congruence). }
  rewrite Hafter. split; [now apply filter_other_session|].
  split.
  { intros r Hin Hgone. apply in_session_iff.
    destruct (Sqlite.in_session a r) eqn:Ha; [reflexivity|].
    exfalso. apply Hgone. apply filter_In. now rewrite Ha. }
  split; [intros r Hr; now apply filter_In in Hr|].
  split.
  { rewrite Hcount.
    assert (Hrows : Z.of_nat (List.length (filter (Sqlite.in_session a) before))
                    = Z.of_nat (List.length before)
                      - Z.of_nat (List.length
                                    (filter (fun r => negb (Sqlite.in_session a r)) before))).
    { pose proof (filter_length (Sqlite.in_session a) before). lia. }
    rewrite <- Hrows. rewrite Hbefore. unfold Sqlite.rows_of.
    destruct (Sqlite.chat_history (DatabaseManager.db dm)); reflexivity. }
  intros dm' _ _. apply filter_same_session.
Qed.

(** C6. When the queries succeed (the connection is open and the table
    exists), [get_message_stats] returns the number of rows of the session
    and the number of those whose role is 'user'. *)
Theorem get_message_stats_counts :
  forall session_id (self : ChatService.t Env T) dm rows,
    ChatService.db self = Some dm ->
    Sqlite.is_open (DatabaseManager.db dm) = true ->
    Sqlite.chat_history (DatabaseManager.db dm) = Some rows ->
    fst (ChatService.get_message_stats session_id self)
    = (Z.of_nat (List.length
                   (filter (fun r => (Sqlite.session_id r =? session_id)%string)
                           (ChatService.history self))),
       Z.of_nat (List.length
                   (filter (fun r => (Sqlite.role r =? "user")%string)
                           (filter (fun r => (Sqlite.session_id r =? session_id)%string)
                                   (ChatService.history self))))).
Proof.
  intros session_id self dm rows Hdb Hopen Htable.
  unfold ChatService.get_message_stats, ChatService.history. rewrite Hdb.
  unfold DatabaseManager.on_db, Sqlite.execute_count, Sqlite.execute_count_user,
    Sqlite.prepare, Sqlite.the_table, Sqlite.rows_of.
  unfold_actions. cbn [DatabaseManager.db DatabaseManager.current_model_path].
  rewrite Hopen. conn_simpl. rewrite Htable. conn_simpl.
  cbn [fst snd Sqlite.fetchone Sqlite.fetchall hd_error ChatService.first_or_zero].
  rewrite !count_where_filter. f_equal. f_equal. f_equal.
  clear. induction rows as [|r rows IH]; simpl; [reflexivity|].
  unfold Sqlite.in_session, Sqlite.is_user in *.
  destruct (Sqlite.session_id r =? session_id)%string; simpl; [|exact IH].
  destruct (Sqlite.role r =? "user")%string; now rewrite IH.
Qed.

(** C7. When storing the turn raises, [chat] still returns what [complete]
    returned: the failure is swallowed and the response is unchanged. *)
Theorem chat_returns_response_when_storing_fails :
  forall session_id message (self : ChatService.t Env T) dm s ai',
    ChatService.db self = Some dm ->
    ai_complete message (ChatService.ai self) = (Returned s, ai') ->
    raised (fst (ChatService.store_turn (ai_current_model_path ai') session_id message s
                                        (DatabaseManager.db dm))) = true ->
    fst (ChatService.chat session_id message self) = s.
Proof.
  intros session_id message self dm s ai' Hdb Hcomplete Hfail.
  rewrite chat_eq. cbn [fst]. unfold ChatService.respond, catch.
  now rewrite Hcomplete.
Qed.

(** *** The table stays in insertion order

    [setup_schema] creates an empty table; [chat] appends rows with ids above
    all before them and [clear_history] only removes rows, so the rows are
    always stored by ascending id, which is what the last part of C2 asks. *)

Lemma store_turn_keeps_order :
  forall model_used session_id message response (c : Sqlite.Connection Env),
    StronglySorted Sqlite.older (Sqlite.rows_of c) ->
    StronglySorted Sqlite.older
      (Sqlite.rows_of
         (snd (ChatService.store_turn model_used session_id message response c))).
Proof.
  intros model_used session_id message response c Hs.
  unfold ChatService.store_turn. unfold_actions.
  pose proof (execute_insert_keeps_order "user" message model_used session_id c Hs) as H1.
  destruct (Sqlite.execute_insert "user" message model_used session_id c)
    as [[cur1|e1] c1]; cbn [snd] in *; [|exact H1].
  pose proof (execute_insert_keeps_order "assistant" response model_used session_id c1 H1)
    as H2.
  destruct (Sqlite.execute_insert "assistant" response model_used session_id c1)
    as [[cur2|e2] c2]; cbn [snd] in *; [|exact H2].
  destruct (commit_keeps_table c2) as [Hkeep _].
  destruct (Sqlite.commit c2) as [[[]|e3] c3]; cbn [snd] in *;
    unfold Sqlite.rows_of in *; now rewrite Hkeep.
Qed.

Lemma setup_schema_creates_empty_table : forall (dm : DatabaseManager.t Env),
  Sqlite.is_open (DatabaseManager.db dm) = true ->
  Sqlite.chat_history (DatabaseManager.db dm) = None ->
  fst (ChatService.setup_schema dm) = Returned tt
  /\ Sqlite.chat_history (DatabaseManager.db (snd (ChatService.setup_schema dm))) = Some [].
Proof.
  intros dm Hopen Hnone.
  unfold ChatService.setup_schema, DatabaseManager.on_db, Sqlite.execute_create,
    Sqlite.prepare, Sqlite.commit, Sqlite.rows_of.
  unfold_actions. rewrite Hopen. conn_simpl. rewrite Hnone. split; reflexivity.
Qed.

Theorem history_stays_in_insertion_order :
  forall session_id message (self : ChatService.t Env T),
    StronglySorted Sqlite.older (ChatService.history self) ->
    StronglySorted Sqlite.older
      (ChatService.history (snd (ChatService.chat session_id message self)))
    /\ StronglySorted Sqlite.older
         (ChatService.history (snd (ChatService.clear_history session_id self))).
Proof.
  intros session_id message self Hs. split.
  - rewrite chat_eq. unfold ChatService.history in *. cbn [snd ChatService.db].
    destruct (ChatService.db self) as [dm|]; cbn [option_map]; [|constructor].
    cbn [DatabaseManager.db]. now apply store_turn_keeps_order.
  - destruct (clear_history_eq session_id self) as [_ Hafter]. rewrite Hafter.
    destruct (match ChatService.db self with
              | Some dm => Sqlite.is_open (DatabaseManager.db dm)
              | None => false
              end); [now apply filter_sorted | exact Hs].
Qed.

End ChatServiceFacts.

Section ChatWithAIClient.
Context {Env : Type} {E : Environment Env}.

(** C1. A chat turn whose history insert succeeds appends exactly two rows to
    [chat_history]: a 'user' row with the input message, then an 'assistant'
    row with the returned response, both with the given session id and with
    [model_used] the client's current model path at the call; their ids are
    consecutive and above every id already in the table. *)
Theorem chat_stores_user_then_assistant :
  forall session_id message (self : ChatService.t Env (AIClient.t Env)) dm,
    ChatService.db self = Some dm ->
    let model_used := AIClient.current_model_path (ChatService.ai self) in
    let response := fst (ChatService.chat session_id message self) in
    fst (ChatService.store_turn model_used session_id message response
                                (DatabaseManager.db dm)) = Returned tt ->
    exists i t1 t2,
      ChatService.history (snd (ChatService.chat session_id message self))
      = ChatService.history self ++
        [ Sqlite.mkChatRow i "user" message model_used t1 session_id;
          Sqlite.mkChatRow (i + 1) "assistant" response model_used t2 session_id ]
      /\ Forall (fun r => Sqlite.id r < i) (ChatService.history self).
Proof.
  intros session_id message self dm Hdb model_used response.
  assert (Hmodel : ai_current_model_path (snd (ChatService.respond message (ChatService.ai self)))
                   = model_used).
  { unfold ChatService.respond, catch. cbn [ai_complete ai_current_model_path AIClient_is_AI].
    pose proof (complete_keeps_model message (ChatService.ai self)) as Hkeep.
    destruct (AIClient.complete message (ChatService.ai self)) as [[s|e] ai'];
      exact Hkeep. }
  subst response. rewrite chat_eq, Hmodel, Hdb. cbn [fst snd option_map].
  set (response := fst (ChatService.respond message (ChatService.ai self))).
  destruct (ChatService.store_turn model_used session_id message response
                                   (DatabaseManager.db dm)) as [[[]|e] c'] eqn:Hstore;
    cbn [fst snd]; intros Hok; [|discriminate Hok].
  apply store_turn_returned in Hstore as (rows & i & t1 & t2 & Htable & Hfresh & Htable').
  exists i, t1, t2.
  unfold ChatService.history. rewrite Hdb. cbn [ChatService.db DatabaseManager.db].
  unfold Sqlite.rows_of. rewrite Htable, Htable'. split; auto.
Qed.

End ChatWithAIClient.

(** ** SyncClient *)

Section SyncClientFacts.
Context {Env : Type} {E : Sync.Environment Env}.

Lemma never_deletes_ret : forall (A : Type) (a : A),
  Sync.never_deletes (Env := Env) (ret a).
Proof. intros A a p. apply incl_refl. Qed.

Lemma never_deletes_raise : forall (A : Type) e,
  Sync.never_deletes (Env := Env) (@raise _ A e).
Proof. intros A e p. apply incl_refl. Qed.

Lemma never_deletes_echo : forall line, Sync.never_deletes (Env := Env) (echo line).
Proof. intros line p. apply incl_refl. Qed.

Lemma never_deletes_echo_all : forall lines,
  Sync.never_deletes (Env := Env) (Sync.echo_all lines).
Proof. intros lines p. apply incl_refl. Qed.

Lemma never_deletes_attr : forall (A : Type) (f : Sync.SyncClient Env -> A),
  Sync.never_deletes (Sync.attr f).
Proof. intros A f p. apply incl_refl. Qed.

Lemma never_deletes_bind :
  forall (A B : Type) (m : Action (Process (Sync.SyncClient Env)) A)
         (k : A -> Action (Process (Sync.SyncClient Env)) B),
    Sync.never_deletes m -> (forall a, Sync.never_deletes (k a)) ->
    Sync.never_deletes (bind m k).
Proof.
  intros A B m k Hm Hk p. unfold bind. specialize (Hm p).
  destruct (m p) as [[a|e] q]; cbn [snd] in *; [|exact Hm].
  eapply incl_tran; [exact Hm | apply Hk].
Qed.

Lemma never_deletes_try_except :
  forall (A : Type) (m : Action (Process (Sync.SyncClient Env)) A)
         (h : Exn -> Action (Process (Sync.SyncClient Env)) A),
    Sync.never_deletes m -> (forall e, Sync.never_deletes (h e)) ->
    Sync.never_deletes (try_except m h).
Proof.
  intros A m h Hm Hh p. unfold try_except. specialize (Hm p).
  destruct (m p) as [[a|e] q]; cbn [snd] in *; [exact Hm|].
  eapply incl_tran; [exact Hm | apply Hh].
Qed.

Lemma never_deletes_try_except_only :
  forall (A : Type) cls (m : Action (Process (Sync.SyncClient Env)) A)
         (h : Exn -> Action (Process (Sync.SyncClient Env)) A),
    Sync.never_deletes m -> (forall e, Sync.never_deletes (h e)) ->
    Sync.never_deletes (try_except_only cls m h).
Proof.
  intros A cls m h Hm Hh p. unfold try_except_only. specialize (Hm p).
  destruct (m p) as [[a|e] q]; cbn [snd] in *; [exact Hm|].
  destruct (is_class cls (exn_class e)); [|exact Hm].
  eapply incl_tran; [exact Hm | apply Hh].
Qed.

Lemma set_sync_enabled_never_deletes : forall b,
  Sync.never_deletes (Env := Env) (Sync.set_sync_enabled b).
Proof. intros b p. apply incl_refl. Qed.

Lemma never_deletes_on_db : forall (A : Type) (m : Action (Sync.Connection Env) A),
  Sync.statement_never_deletes m -> Sync.never_deletes (Sync.on_db m).
Proof.
  intros A m Hm p. unfold Sync.on_db, on_client, Sync.table. specialize (Hm (Sync.db (client p))).
  destruct (m (Sync.db (client p))) as [o c]. exact Hm.
Qed.

Lemma call_extension_never_deletes :
  forall (R : Type) (f : Env * list Sync.Todo -> Outcome R * (Env * list Sync.Todo)),
    Sync.keeps_rows f -> Sync.statement_never_deletes (Sync.call_extension f).
Proof.
  intros R f Hf c. unfold Sync.call_extension.
  specialize (Hf (Sync.env c) (Sync.todos c)).
  destruct (f (Sync.env c, Sync.todos c)) as [o [w rows]]. exact Hf.
Qed.

Lemma execute_insert_never_deletes : forall todo_id title device,
  Sync.statement_never_deletes (Sync.execute_insert (E := E) todo_id title device).
Proof.
  intros todo_id title device c. unfold Sync.execute_insert.
  destruct (existsb _ _); [apply incl_refl|].
  destruct (Sync.CURRENT_TIMESTAMP (Sync.env c)) as [t w]. cbn [snd Sync.todos].
  rewrite map_app. apply incl_appl, incl_refl.
Qed.

(** The UPDATE changes no id. *)
Lemma execute_update_ids : forall todo_id (c : Sync.Connection Env),
  map Sync.id (Sync.todos (snd (Sync.execute_update todo_id c))) = map Sync.id (Sync.todos c).
Proof.
  intros todo_id c. unfold Sync.execute_update. cbn [snd Sync.todos].
  rewrite map_map. apply map_ext. intros t. destruct (Sync.has_id todo_id t); reflexivity.
Qed.

Lemma execute_update_never_deletes : forall todo_id,
  Sync.statement_never_deletes (Sync.execute_update (Env := Env) todo_id).
Proof.
  intros todo_id c. rewrite execute_update_ids. apply incl_refl.
Qed.

Lemma fallback_uuid_never_deletes : Sync.never_deletes (Sync.fallback_uuid (E := E)).
Proof.
  apply never_deletes_on_db. intros c.
  destruct (Sync.uuid4 (Sync.env c)) as [u w]. apply incl_refl.
Qed.

Create HintDb sync.

#[local] Hint Resolve never_deletes_ret never_deletes_raise never_deletes_echo
  never_deletes_echo_all never_deletes_attr never_deletes_on_db
  call_extension_never_deletes execute_insert_never_deletes
  execute_update_never_deletes fallback_uuid_never_deletes
  set_sync_enabled_never_deletes : sync.

Ltac never_deletes_step :=
  first [ solve [auto with sync]
        | solve [apply never_deletes_on_db; intros c; apply incl_refl]
        | match goal with |- Sync.never_deletes (if ?b then _ else _) => destruct b end
        | match goal with |- Sync.never_deletes (match ?x with _ => _ end) => destruct x end
        | match goal with
          | |- Sync.never_deletes (try_except_only _ _ _) =>
            apply never_deletes_try_except_only; [|intros ?]
          | |- Sync.never_deletes (try_except _ _) =>
            apply never_deletes_try_except; [|intros ?]
          | |- Sync.never_deletes (bind _ _) =>
            apply never_deletes_bind; [|intros ?]
          end ].

(** No method of the client removes a todo, as long as the extension it
    calls removes none. *)
Lemma perform_never_deletes : forall op,
  Sync.extension_keeps_rows -> Sync.never_deletes (Sync.perform op).
Proof.
  intros op (Hinit & Hnet & Hkey & Hsync & Huuid & Hterm).
  assert (Hget : Sync.never_deletes Sync._get_uuid).
  { unfold Sync._get_uuid. repeat never_deletes_step. }
  destruct op; unfold Sync.perform, Sync.discard, Sync._setup_schema, Sync.setup_cloud,
    Sync.sync, Sync.add_todo,
    Sync.complete_todo, Sync.list_todos, Sync.show_status, Sync.close;
    repeat never_deletes_step.
Qed.


(** [complete_todo] written out: it returns, having rewritten the table and
    printed one line. *)
Lemma complete_todo_eq : forall todo_id (p : Process (Sync.SyncClient Env)),
  let matched := 0 <? Z.of_nat (List.length (filter (Sync.has_id todo_id) (Sync.table p))) in
  fst (Sync.complete_todo todo_id p) = Returned tt
  /\ Sync.table (snd (Sync.complete_todo todo_id p))
     = map (fun t => if Sync.has_id todo_id t then Sync.set_completed t else t)
           (Sync.table p)
  /\ console (snd (Sync.complete_todo todo_id p))
     = console p ++ [(stdout, if matched then "✅ Todo completed!" else "❌ Todo not found")].
Proof.
  intros todo_id p matched. unfold Sync.complete_todo, Sync.on_db, Sync.execute_update,
    Sync.commit, Sync.table.
  unfold_actions. cbn [fst snd client console Sync.db Sync.todos].
  fold (Sync.table p). fold matched.
  destruct matched; cbn [fst snd client console Sync.db Sync.todos]; repeat split.
Qed.

Lemma no_match_no_change : forall todo_id (rows : list Sync.Todo),
  (forall t, In t rows -> Sync.id t <> todo_id) ->
  filter (Sync.has_id todo_id) rows = []
  /\ map (fun t => if Sync.has_id todo_id t then Sync.set_completed t else t) rows = rows.
Proof.
  intros todo_id rows. induction rows as [|t rows IH]; intros Hnone; [split; reflexivity|].
  destruct IH as [IHf IHm]; [intros x Hx; apply Hnone; now right|].
  assert (Ht : Sync.has_id todo_id t = false).
  { unfold Sync.has_id. apply String.eqb_neq. apply Hnone. now left. }
  simpl. rewrite Ht, IHf, IHm. split; reflexivity.
Qed.

Lemma some_match_counts : forall todo_id (rows : list Sync.Todo) t,
  In t rows -> Sync.id t = todo_id ->
  (0 <? Z.of_nat (List.length (filter (Sync.has_id todo_id) rows))) = true.
Proof.
  intros todo_id rows t Hin Hid.
  assert (Hf : In t (filter (Sync.has_id todo_id) rows)).
  { apply filter_In. split; [exact Hin|]. unfold Sync.has_id. now apply String.eqb_eq. }
  destruct (filter (Sync.has_id todo_id) rows); [contradiction|].
  simpl List.length. apply Z.ltb_lt. lia.
Qed.

(** C9. [complete_todo id] returns, having set the completed flag of the rows
    whose id is [id] and left their other fields and every other row as they
    were, and it reports "Todo completed!"; when no row has that id the table
    is unchanged and "Todo not found" is reported.  No method of the client
    removes a todo: every id in the table before a call is in the table after
    it, provided the extension the client calls removes none. *)
Theorem complete_todo_marks_only_that_todo :
  forall todo_id (p : Process (Sync.SyncClient Env)),
    let after := snd (Sync.complete_todo todo_id p) in
    fst (Sync.complete_todo todo_id p) = Returned tt
    /\ Forall2 (fun t t' =>
                  if (Sync.id t =? todo_id)%string
                  then t' = Sync.mkTodo (Sync.id t) (Sync.title t) 1
                                        (Sync.created_at t) (Sync.device t)
                  else t' = t)
               (Sync.table p) (Sync.table after)
    /\ (forall t, In t (Sync.table p) -> Sync.id t = todo_id ->
          console after = console p ++ [(stdout, "✅ Todo completed!")])
    /\ ((forall t, In t (Sync.table p) -> Sync.id t <> todo_id) ->
        Sync.table after = Sync.table p
        /\ console after = console p ++ [(stdout, "❌ Todo not found")])
    /\ (Sync.extension_keeps_rows ->
        forall op q,
          incl (map Sync.id (Sync.table q))
               (map Sync.id (Sync.table (snd (Sync.perform op q))))).
Proof.
  intros todo_id p after.
  destruct (complete_todo_eq todo_id p) as (Hret & Htable & Hconsole).
  fold after in Htable, Hconsole.
  split; [exact Hret|]. split.
  { rewrite Htable. generalize (Sync.table p). intros rows.
    induction rows as [|t rows IH]; simpl; constructor; [|exact IH].
    unfold Sync.has_id. destruct (Sync.id t =? todo_id)%string; reflexivity. }
  split.
  { intros t Hin Hid. rewrite Hconsole.
    now rewrite (@some_match_counts todo_id (Sync.table p) t Hin Hid). }
  split.
  { intros Hnone. destruct (@no_match_no_change todo_id (Sync.table p) Hnone) as [Hf Hm].
    rewrite Htable, Hconsole, Hf, Hm. split; reflexivity. }
  intros Hext op q. now apply perform_never_deletes.
Qed.

End SyncClientFacts.

(** ** The command-line interfaces *)

Section CommandLineFacts.
Context {SyncEnv : Type} {SE : Sync.Environment SyncEnv}.
Context {Env : Type} {E : Environment Env}.


End CommandLineFacts.

(** ** The properties at work *)


Lemma chat_stores_witness :
  exists i t1 t2,
    ChatService.history
      (snd (ChatService.chat "a" "ping" (a_service (echoing 0) (Some LLAMA) (Some two_sessions) 4)))
    = two_sessions ++
      [ Sqlite.mkChatRow i "user" "ping" (Some LLAMA) t1 "a";
        Sqlite.mkChatRow (i + 1) "assistant" "You said: ping" (Some LLAMA) t2 "a" ]
    /\ Forall (fun r => Sqlite.id r < i) two_sessions.
Proof.
  exact (@chat_stores_user_then_assistant Echo echo_extension "a" "ping"
           (a_service (echoing 0) (Some LLAMA) (Some two_sessions) 4)
           (DatabaseManager.mk None (a_connection (echoing 0) (Some two_sessions) 4))
           eq_refl eq_refl).
Defined.

Lemma get_history_witness :
  0 <= 1
  /\ exists sel,
       fst (ChatService.get_history "a" 1
              (a_service (offline 0) None (Some two_sessions) 4))
       = map Sqlite.history_row sel
       /\ Z.of_nat (List.length sel) <= 1.
Proof.
  split; [lia|].
  destruct (@get_history_newest_first_within_limit Offline (AIClient.t Offline) "a" 1
              (a_service (offline 0) None (Some two_sessions) 4) ltac:(lia))
    as (sel & Hsel & Hlen & _).
  exists sel. split; assumption.
Defined.

Lemma clear_history_witness :
  "a" <> "b"
  /\ filter (Sqlite.in_session "b")
            (ChatService.history
               (snd (ChatService.clear_history "a"
                       (a_service (offline 0) None (Some two_sessions) 4))))
     = filter (Sqlite.in_session "b") two_sessions.
Proof.
  assert (Hab : "a" <> "b") by discriminate.
  split; [exact Hab|].
  apply (@clear_history_session_isolation Offline (AIClient.t Offline) "a" "b"
           (a_service (offline 0) None (Some two_sessions) 4) Hab).
Defined.

Lemma get_message_stats_witness :
  fst (ChatService.get_message_stats "a" (a_service (offline 0) None (Some two_sessions) 4))
  = (2, 1).
Proof.
  exact (@get_message_stats_counts Offline (AIClient.t Offline) "a"
           (a_service (offline 0) None (Some two_sessions) 4)
           (DatabaseManager.mk None (a_connection (offline 0) (Some two_sessions) 4))
           two_sessions eq_refl eq_refl eq_refl).
Defined.

(** The schema was never set up: the first insert raises "no such table". *)
Lemma chat_swallows_witness :
  raised (fst (ChatService.store_turn None "a" "Hello"
                 "No model loaded. Please load a model first."
                 (a_connection (offline 0) None 0))) = true
  /\ fst (ChatService.chat "a" "Hello" (a_service (offline 0) None None 0))
     = "No model loaded. Please load a model first.".
Proof.
  split; [reflexivity|].
  exact (@chat_returns_response_when_storing_fails Offline no_extension (AIClient.t Offline) _
           "a" "Hello" (a_service (offline 0) None None 0)
           (DatabaseManager.mk None (a_connection (offline 0) None 0))
           "No model loaded. Please load a model first."
           (a_client (offline 0) None)
           eq_refl eq_refl eq_refl).
Defined.

(** Both devices' extensions remove no todo: the one is absent, the other
    only appends what was waiting in the cloud. *)
Lemma local_only_keeps_rows : @Sync.extension_keeps_rows Device local_only.
Proof.
  repeat split; intros; intros w rows; apply incl_refl.
Qed.

Lemma cloud_synced_keeps_rows : @Sync.extension_keeps_rows Cloud cloud_synced.
Proof.
  repeat split; intros; intros [t d waiting] rows; cbn [snd Sync.cloudsync_network_sync
    Sync.cloudsync_uuid Sync.cloudsync_init Sync.cloudsync_network_init
    Sync.cloudsync_network_set_apikey Sync.cloudsync_terminate cloud_synced];
    try apply incl_refl.
  rewrite map_app. apply incl_appl, incl_refl.
Qed.

Lemma complete_todo_witness :
  Sync.table (snd (Sync.complete_todo "b1" device_b))
  = [Sync.mkTodo "b1" "Review sync demo" 1 "2024-01-01 00:00:02" "device-b"]
  /\ console (snd (Sync.complete_todo "zz" device_b)) = [(stdout, "❌ Todo not found")]
  /\ incl (map Sync.id (Sync.table device_b))
          (map Sync.id (Sync.table (snd (Sync.perform Sync.DoSync device_b)))).
Proof.
  split; [reflexivity|]. split; [reflexivity|].
  destruct (@complete_todo_marks_only_that_todo Cloud cloud_synced "b1" device_b)
    as (_ & _ & _ & _ & Hkeeps).
  apply Hkeeps. exact cloud_synced_keeps_rows.
Defined.

(** The two inserts of a turn are not one unit: when the table has room for
    one more row only, the user row is stored, the assistant row is not, and
    the response is returned all the same. *)
Example second_insert_can_fail :
  let turn := ChatService.chat "a" "ping"
                (a_service (echoing 0) (Some LLAMA) (Some two_sessions) (Sqlite.MAX_ROWID - 1)) in
  fst turn = "You said: ping"
  /\ map Sqlite.role (ChatService.history (snd turn))
     = ["user"; "assistant"; "user"; "assistant"; "user"].
Proof.
  split; reflexivity.
Qed.

(** * Further properties of the code *)

From Stdlib Require Import Permutation.

(** ** ai.py *)

Section AIClientMore.
Context {Env : Type} {E : Environment Env}.

(** X1. [load_model] always returns.  It returns [True] exactly when the
    file exists and the load statement did not raise (the connection is open
    and the extension accepted the model); then the path becomes the current
    model, otherwise the current model stays what it was.  When the file
    exists it executes the one statement [SELECT llm_model_load(path)]. *)
Theorem load_model_outcome :
  forall model_path (self : AIClient.t Env),
    let conn := DatabaseManager.db (AIClient.database_manager self) in
    exists b self',
      AIClient.load_model model_path self = (Returned b, self')
      /\ (b = true <->
          AIClient.path_exists self model_path = true
          /\ Sqlite.is_open conn = true
          /\ raised (fst (llm_model_load model_path (Sqlite.env conn))) = false)
      /\ (b = true -> AIClient.current_model_path self' = Some model_path)
      /\ (b = false -> AIClient.current_model_path self' = AIClient.current_model_path self)
      /\ (AIClient.path_exists self model_path = true ->
          AIClient.executed self'
          = AIClient.executed self ++ [Sqlite.SelectLlmModelLoad model_path]).
Proof.
  intros model_path self conn. unfold AIClient.load_model.
  destruct (AIClient.path_exists self model_path) eqn:Hex; cbn [negb].
  2:{ exists false, self. split; [reflexivity|]. split.
      { split; [discriminate | intros (Habs & _); discriminate]. }
      repeat split; auto; discriminate. }
  unfold AIClient.on_database_manager, DatabaseManager.on_db,
    Sqlite.execute_llm_model_load, Sqlite.prepare, Sqlite.call_extension,
    AIClient.set_current_model_path, AIClient.executed.
  unfold_actions. fold conn.
  destruct (Sqlite.is_open conn) eqn:Hopen; conn_simpl.
  - destruct (llm_model_load model_path (Sqlite.env conn)) as [[rows|e] w] eqn:Hload;
      cbn [fst raised].
    + eexists. eexists. split; [reflexivity|].
      cbn [AIClient.current_model_path AIClient.database_manager]. conn_simpl.
      repeat split; auto; discriminate.
    + eexists. eexists. split; [reflexivity|].
      cbn [AIClient.current_model_path AIClient.database_manager]. conn_simpl.
      split; [split; [discriminate | intros (_ & _ & Habs); discriminate]|].
      repeat split; auto; discriminate.
  - eexists. eexists. split; [reflexivity|].
    cbn [AIClient.current_model_path AIClient.database_manager]. conn_simpl.
    split; [split; [discriminate | intros (_ & Habs & _); discriminate]|].
    repeat split; auto; discriminate.
Qed.

(** X2. With a model loaded, [complete] executes exactly one statement on
    the client's connection, [SELECT llm_text_generate(message)], and leaves
    the current model, the connection's tables and its being open as they
    were. *)
Theorem complete_with_model_executes_one_statement :
  forall message (self : AIClient.t Env),
    truthy_opt (AIClient.current_model_path self) = true ->
    let conn := DatabaseManager.db (AIClient.database_manager self) in
    let self' := snd (AIClient.complete message self) in
    let conn' := DatabaseManager.db (AIClient.database_manager self') in
    AIClient.executed self' = AIClient.executed self ++ [Sqlite.SelectLlmTextGenerate message]
    /\ AIClient.current_model_path self' = AIClient.current_model_path self
    /\ Sqlite.chat_history conn' = Sqlite.chat_history conn
    /\ Sqlite.is_open conn' = Sqlite.is_open conn.
Proof.
  intros message self Hloaded conn self' conn'. subst self' conn'.
  unfold AIClient.complete. rewrite Hloaded. cbn [negb].
  unfold AIClient.on_database_manager, DatabaseManager.on_db,
    Sqlite.execute_llm_text_generate, Sqlite.prepare, Sqlite.call_extension,
    AIClient.executed.
  unfold_actions. fold conn.
  destruct (Sqlite.is_open conn) eqn:Hopen; conn_simpl.
  - destruct (llm_text_generate message (Sqlite.env conn)) as [[rows|e] w];
      cbn [snd AIClient.current_model_path AIClient.database_manager]; conn_simpl;
      repeat split; auto.
  - cbn [snd AIClient.current_model_path AIClient.database_manager]. conn_simpl.
    repeat split; auto.
Qed.

(** [complete] returns a string that is not empty, whatever the state. *)
Lemma complete_returns_nonempty : forall message (self : AIClient.t Env),
  exists s, fst (AIClient.complete message self) = Returned s /\ s <> "".
Proof.
  intros message self. unfold AIClient.complete.
  destruct (negb (truthy_opt (AIClient.current_model_path self))).
  { eexists. split; [reflexivity | discriminate]. }
  unfold AIClient.on_database_manager, DatabaseManager.on_db. unfold_actions.
  destruct (Sqlite.execute_llm_text_generate message _) as [[cur|e] c]; cbn [fst];
    eexists; (split; [reflexivity|]).
  - apply first_column_or_sorry_nonempty.
  - apply error_prefix_nonempty.
Qed.

(** What a [load_model] that returned [True] has done. *)
Lemma load_model_true : forall model_path (self : AIClient.t Env),
  fst (AIClient.load_model model_path self) = Returned true ->
  AIClient.current_model_path (snd (AIClient.load_model model_path self)) = Some model_path
  /\ AIClient.executed (snd (AIClient.load_model model_path self))
     = AIClient.executed self ++ [Sqlite.SelectLlmModelLoad model_path].
Proof.
  intros model_path self. unfold AIClient.load_model.
  destruct (AIClient.path_exists self model_path); cbn [negb]; [|discriminate].
  unfold AIClient.on_database_manager, DatabaseManager.on_db,
    Sqlite.execute_llm_model_load, Sqlite.prepare, Sqlite.call_extension,
    AIClient.set_current_model_path, AIClient.executed.
  unfold_actions.
  destruct (Sqlite.is_open (DatabaseManager.db (AIClient.database_manager self)));
    conn_simpl; [|discriminate].
  destruct (llm_model_load model_path _) as [[rows|e] w]; cbn [fst snd]; [|discriminate].
  intros _. cbn [AIClient.current_model_path AIClient.database_manager]. conn_simpl.
  split; reflexivity.
Qed.

(** The statement log of [complete] with a model loaded. *)
Lemma complete_with_model_log : forall message (self : AIClient.t Env),
  truthy_opt (AIClient.current_model_path self) = true ->
  AIClient.executed (snd (AIClient.complete message self))
  = AIClient.executed self ++ [Sqlite.SelectLlmTextGenerate message].
Proof.
  intros message self Hloaded. unfold AIClient.complete. rewrite Hloaded. cbn [negb].
  unfold AIClient.on_database_manager, DatabaseManager.on_db,
    Sqlite.execute_llm_text_generate, Sqlite.prepare, Sqlite.call_extension,
    AIClient.executed.
  unfold_actions.
  destruct (Sqlite.is_open (DatabaseManager.db (AIClient.database_manager self)));
    conn_simpl.
  - destruct (llm_text_generate message _) as [[rows|e] w];
      cbn [snd AIClient.database_manager]; conn_simpl; reflexivity.
  - cbn [snd AIClient.database_manager]. conn_simpl. reflexivity.
Qed.

(** X3. Loading and then completing: after a [load_model] that returned
    [True] for a path that is not empty, [complete] goes to the extension,
    so the connection has executed the load and then the generation, and
    nothing else. *)
Theorem load_model_then_complete :
  forall model_path message (self : AIClient.t Env),
    model_path <> "" ->
    fst (AIClient.load_model model_path self) = Returned true ->
    let loaded := snd (AIClient.load_model model_path self) in
    AIClient.executed (snd (AIClient.complete message loaded))
    = AIClient.executed self
      ++ [Sqlite.SelectLlmModelLoad model_path; Sqlite.SelectLlmTextGenerate message].
Proof.
  intros model_path message self Hne Hok loaded. subst loaded.
  destruct (load_model_true model_path self Hok) as [Hset Hlog].
  assert (Hloaded : truthy_opt (AIClient.current_model_path
                                  (snd (AIClient.load_model model_path self))) = true).
  { rewrite Hset. cbn. unfold truthy.
    destruct (String.eqb_spec model_path ""); [contradiction | reflexivity]. }
  rewrite (complete_with_model_log message _ Hloaded), Hlog, <- app_assoc. reflexivity.
Qed.

End AIClientMore.

Lemma complete_with_model_executes_witness :
  AIClient.executed (snd (AIClient.complete "Hello" (a_client (echoing 0) (Some LLAMA))))
  = [Sqlite.SelectLlmTextGenerate "Hello"].
Proof.
  exact (proj1 (@complete_with_model_executes_one_statement Echo echo_extension "Hello"
                  (a_client (echoing 0) (Some LLAMA)) eq_refl)).
Defined.

Lemma load_model_then_complete_witness :
  AIClient.executed
    (snd (AIClient.complete "Hello"
            (snd (AIClient.load_model LLAMA (a_client (echoing 0) None)))))
  = [Sqlite.SelectLlmModelLoad LLAMA; Sqlite.SelectLlmTextGenerate "Hello"].
Proof.
  exact (@load_model_then_complete Echo echo_extension LLAMA "Hello"
           (a_client (echoing 0) None) ltac:(discriminate) eq_refl).
Defined.

(** ** chat.py *)

Section SqliteMore.
Context {Env : Type} {E : Environment Env}.

(** An INSERT, whether it raises or returns. *)
Lemma execute_insert_cases :
  forall role message model_used session_id (c : Sqlite.Connection Env),
    let run := Sqlite.execute_insert role message model_used session_id c in
    let top := Z.max (Sqlite.sqlite_sequence c) (Sqlite.max_rowid (Sqlite.rows_of c)) in
    Sqlite.is_open (snd run) = Sqlite.is_open c
    /\ ((raised (fst run) = true
         /\ Sqlite.chat_history (snd run) = Sqlite.chat_history c
         /\ Sqlite.sqlite_sequence (snd run) = Sqlite.sqlite_sequence c)
        \/ (exists t rows,
              raised (fst run) = false
              /\ Sqlite.is_open c = true
              /\ Sqlite.chat_history c = Some rows
              /\ Sqlite.chat_history (snd run)
                 = Some (rows ++ [Sqlite.mkChatRow (top + 1) role message model_used t
                                                   session_id])
              /\ Sqlite.sqlite_sequence (snd run) = top + 1)).
Proof.
  intros role message model_used session_id c run top. subst run top.
  unfold Sqlite.execute_insert, Sqlite.prepare, Sqlite.the_table, Sqlite.now,
    Sqlite.write_table, Sqlite.rows_of.
  unfold_actions.
  destruct (Sqlite.is_open c) eqn:Hopen; conn_simpl.
  2:{ split; [reflexivity|]. left. repeat split. }
  destruct (Sqlite.chat_history c) as [rows|] eqn:Htable; conn_simpl.
  2:{ split; [reflexivity|]. left. repeat split. }
  destruct (Z.leb_spec Sqlite.MAX_ROWID
              (Z.max (Sqlite.sqlite_sequence c) (Sqlite.max_rowid rows))) as [Hfull|Hroom];
    conn_simpl.
  { split; [reflexivity|]. left. repeat split. }
  destruct (CURRENT_TIMESTAMP (Sqlite.env c)) as [t w]. conn_simpl.
  split; [reflexivity|]. right. exists t, rows. repeat split.
Qed.

End SqliteMore.

Section ChatServiceMore.
Context {Env : Type} {E : Environment Env} {T : Type} {A : AI T}.

(** The [try] of [chat] that stores a turn, however far it gets: it appends
    the first [k] of the two rows, [k] being 2 exactly when it does not
    raise. *)
Lemma store_turn_cases :
  forall model_used session_id message response (c : Sqlite.Connection Env),
    let run := ChatService.store_turn model_used session_id message response c in
    let i := Z.max (Sqlite.sqlite_sequence c) (Sqlite.max_rowid (Sqlite.rows_of c)) + 1 in
    exists (k : nat) t1 t2,
      (k <= 2)%nat
      /\ Sqlite.rows_of (snd run)
         = Sqlite.rows_of c
           ++ firstn k [ Sqlite.mkChatRow i "user" message model_used t1 session_id;
                         Sqlite.mkChatRow (i + 1) "assistant" response model_used t2
                                          session_id ]
      /\ (raised (fst run) = false <-> k = 2%nat)
      /\ Sqlite.is_open (snd run) = Sqlite.is_open c
      /\ (Sqlite.chat_history (snd run) = None <-> Sqlite.chat_history c = None)
      /\ Sqlite.sqlite_sequence (snd run)
         = match k with O => Sqlite.sqlite_sequence c | S _ => i + Z.of_nat k - 1 end
      /\ (k <> 0%nat -> Sqlite.is_open c = true).
Proof.
  intros model_used session_id message response c run i. subst run.
  unfold ChatService.store_turn. unfold_actions.
  pose proof (execute_insert_cases "user" message model_used session_id c) as H1.
  cbv zeta in H1. fold i in H1.
  destruct (Sqlite.execute_insert "user" message model_used session_id c) as [o1 c1].
  cbn [fst snd] in H1. destruct H1 as [Hopen1 [(Hr1 & Ht1 & Hs1) | (t1 & rows & Hr1 & Hopen & Htable & Ht1 & Hs1)]].
  { destruct o1 as [cur1|e1]; [discriminate Hr1|]. cbn [fst snd].
    exists 0%nat, "", "". cbn [firstn]. rewrite app_nil_r. unfold Sqlite.rows_of.
    rewrite Ht1. repeat split; auto; try discriminate; try (now rewrite Ht1);
      try (intros Habs; now contradiction Habs). }
  destruct o1 as [cur1|e1]; [|discriminate Hr1].
  assert (Hrows : Sqlite.rows_of c = rows) by (unfold Sqlite.rows_of; now rewrite Htable).
  assert (Hrows1 : Sqlite.rows_of c1
                   = rows ++ [Sqlite.mkChatRow i "user" message model_used t1 session_id])
    by (unfold Sqlite.rows_of; now rewrite Ht1).
  pose proof (execute_insert_cases "assistant" response model_used session_id c1) as H2.
  cbv zeta in H2. rewrite Hs1, Hrows1, max_rowid_app in H2. cbn [Sqlite.id] in H2.
  replace (Z.max i (Z.max (Sqlite.max_rowid rows) (Z.max i 0)) + 1) with (i + 1) in H2
    by (destruct (max_rowid_bounds rows) as [? _]; subst i; rewrite Hrows; lia).
  destruct (Sqlite.execute_insert "assistant" response model_used session_id c1) as [o2 c2].
  cbn [fst snd] in H2.
  destruct H2 as [Hopen2 [(Hr2 & Ht2 & Hs2) | (t2 & rows1 & Hr2 & _ & Htable1 & Ht2 & Hs2)]].
  { destruct o2 as [cur2|e2]; [discriminate Hr2|]. cbn [fst snd].
    exists 1%nat, t1, "". cbn [firstn]. unfold Sqlite.rows_of at 1.
    rewrite Ht2, Ht1, Hrows.
    repeat split; auto; try discriminate; try congruence; try lia;
      try (intros _; rewrite Htable; discriminate). }
  destruct o2 as [cur2|e2]; [|discriminate Hr2].
  rewrite Ht1 in Htable1. injection Htable1 as <-.
  unfold Sqlite.commit. rewrite Hopen2, Hopen1, Hopen. cbn [fst snd]. conn_simpl.
  exists 2%nat, t1, t2. cbn [firstn]. unfold Sqlite.rows_of at 1. conn_simpl.
  rewrite Ht2, Hrows, <- app_assoc.
  repeat split; auto; try discriminate; try congruence; try lia;
    try (intros _; rewrite Htable; discriminate).
Qed.


(** The state [chat] leaves, from [chat_eq]. *)
Lemma chat_state : forall session_id message (self : ChatService.t Env T),
  let response := fst (ChatService.chat session_id message self) in
  let model_used := ai_current_model_path (snd (ChatService.respond message (ChatService.ai self))) in
  ChatService.db (snd (ChatService.chat session_id message self))
  = option_map
      (fun dm => DatabaseManager.mk
                   (DatabaseManager.current_model_path dm)
                   (snd (ChatService.store_turn model_used session_id message response
                                                (DatabaseManager.db dm))))
      (ChatService.db self).
Proof.
  intros session_id message self. cbv zeta. rewrite chat_eq. reflexivity.
Qed.

Lemma stored_iff : forall session_id message (self : ChatService.t Env T) dm,
  ChatService.db self = Some dm ->
  ChatService.stored session_id message self
  = negb (raised (fst (ChatService.store_turn
                         (ai_current_model_path
                            (snd (ChatService.respond message (ChatService.ai self))))
                         session_id message
                         (fst (ChatService.chat session_id message self))
                         (DatabaseManager.db dm)))).
Proof.
  intros session_id message self dm Hdb. unfold ChatService.stored.
  rewrite chat_eq, Hdb. cbn [fst].
  destruct (ChatService.respond message (ChatService.ai self)); reflexivity.
Qed.

(** The rows of the table after [chat]. *)
Lemma chat_rows_after :
  forall session_id message (self : ChatService.t Env T),
    let response := fst (ChatService.chat session_id message self) in
    let model_used :=
      ai_current_model_path (snd (ChatService.respond message (ChatService.ai self))) in
    exists (k : nat) i t1 t2,
      (k <= 2)%nat
      /\ ChatService.history (snd (ChatService.chat session_id message self))
         = ChatService.history self
           ++ firstn k [ Sqlite.mkChatRow i "user" message model_used t1 session_id;
                         Sqlite.mkChatRow (i + 1) "assistant" response model_used t2
                                          session_id ]
      /\ (k = 2%nat <-> ChatService.stored session_id message self = true)
      /\ Forall (fun r => Sqlite.id r < i) (ChatService.history self)
      /\ ChatService.connected (snd (ChatService.chat session_id message self))
         = ChatService.connected self.
Proof.
  intros session_id message self response model_used.
  pose proof (chat_state session_id message self) as Hdb. cbv zeta in Hdb.
  fold response model_used in Hdb.
  unfold ChatService.history, ChatService.connected. rewrite Hdb.
  destruct (ChatService.db self) as [dm|] eqn:Hself; cbn [option_map].
  2:{ exists 0%nat, 0, "", "". unfold ChatService.stored. rewrite Hself.
      repeat split; auto; try discriminate; try constructor. }
  destruct (store_turn_cases model_used session_id message response (DatabaseManager.db dm))
    as (k & t1 & t2 & Hk & Hrows & Hok & Hopen & _ & _ & _).
  exists k, (Z.max (Sqlite.sqlite_sequence (DatabaseManager.db dm))
                   (Sqlite.max_rowid (Sqlite.rows_of (DatabaseManager.db dm))) + 1), t1, t2.
  cbn [DatabaseManager.db]. split; [exact Hk|]. split; [exact Hrows|].
  split.
  { rewrite (stored_iff session_id message self Hself). fold response model_used.
    rewrite <- Hok. destruct (raised _); cbn; split; congruence. }
  split; [|exact Hopen].
  destruct (max_rowid_bounds (Sqlite.rows_of (DatabaseManager.db dm))) as [_ Hbound].
  eapply Forall_impl; [|exact Hbound]. cbn beta. intros; lia.
Qed.


(** What the two queries return is decided by whether the service is
    connected and by the rows of the table. *)
Lemma get_history_by_history : forall session_id limit (self : ChatService.t Env T),
  fst (ChatService.get_history session_id limit self)
  = if ChatService.connected self
       && negb ((limit <? Sqlite.MIN_INT64) || (Sqlite.MAX_ROWID <? limit))
    then map Sqlite.history_row (Sqlite.selected session_id limit (ChatService.history self))
    else [].
Proof.
  intros session_id limit self. rewrite get_history_eq.
  unfold ChatService.connected, ChatService.history, Sqlite.rows_of.
  destruct (ChatService.db self) as [dm|]; [|reflexivity].
  destruct (Sqlite.is_open (DatabaseManager.db dm)); [|reflexivity].
  destruct (Sqlite.chat_history (DatabaseManager.db dm)) as [rows|]; cbn [andb].
  - destruct ((limit <? Sqlite.MIN_INT64) || (Sqlite.MAX_ROWID <? limit)); reflexivity.
  - destruct ((limit <? Sqlite.MIN_INT64) || (Sqlite.MAX_ROWID <? limit)); cbn [negb];
      [reflexivity|]. unfold Sqlite.selected, Sqlite.limit_rows. cbn.
    destruct (limit <? 0); [reflexivity | now rewrite firstn_nil].
Qed.

Lemma get_message_stats_by_history : forall session_id (self : ChatService.t Env T),
  fst (ChatService.get_message_stats session_id self)
  = if ChatService.connected self
    then (Z.of_nat (List.length (filter (Sqlite.in_session session_id)
                                        (ChatService.history self))),
          Z.of_nat (List.length
                      (filter (fun r => Sqlite.in_session session_id r && Sqlite.is_user r)
                              (ChatService.history self))))
    else (0, 0).
Proof.
  intros session_id self.
  unfold ChatService.get_message_stats, ChatService.connected, ChatService.history.
  destruct (ChatService.db self) as [dm|]; [|reflexivity].
  unfold DatabaseManager.on_db, Sqlite.execute_count, Sqlite.execute_count_user,
    Sqlite.prepare, Sqlite.the_table, Sqlite.rows_of.
  unfold_actions.
  destruct (Sqlite.is_open (DatabaseManager.db dm)) eqn:Hopen; conn_simpl; [|reflexivity].
  destruct (Sqlite.chat_history (DatabaseManager.db dm)) as [rows|] eqn:Htable; conn_simpl;
    [|reflexivity].
  cbn [fst snd Sqlite.fetchone Sqlite.fetchall hd_error ChatService.first_or_zero].
  now rewrite !count_where_filter.
Qed.

(** X5. The two queries only read: after [get_history] and after
    [get_message_stats] the table holds the rows it held, and the service is
    connected as before. *)
Theorem queries_leave_the_table :
  forall session_id limit (self : ChatService.t Env T),
    ChatService.history (snd (ChatService.get_history session_id limit self))
    = ChatService.history self
    /\ ChatService.connected (snd (ChatService.get_history session_id limit self))
       = ChatService.connected self
    /\ ChatService.history (snd (ChatService.get_message_stats session_id self))
       = ChatService.history self
    /\ ChatService.connected (snd (ChatService.get_message_stats session_id self))
       = ChatService.connected self.
Proof.
  intros session_id limit self.
  unfold ChatService.get_history, ChatService.get_message_stats, ChatService.history,
    ChatService.connected.
  destruct (ChatService.db self) as [dm|] eqn:Hdb; cbn [snd]; [|rewrite Hdb; auto].
  unfold DatabaseManager.on_db, Sqlite.execute_select_history, Sqlite.execute_count,
    Sqlite.execute_count_user, Sqlite.prepare, Sqlite.the_table, Sqlite.rows_of.
  unfold_actions.
  destruct (Sqlite.is_open (DatabaseManager.db dm)) eqn:Hopen; conn_simpl;
    cbn [snd ChatService.db]; conn_simpl; auto.
  destruct (Sqlite.chat_history (DatabaseManager.db dm)) as [rows|] eqn:Htable; conn_simpl;
    cbn [snd ChatService.db]; conn_simpl; rewrite ?Htable; auto.
  destruct ((limit <? Sqlite.MIN_INT64) || (Sqlite.MAX_ROWID <? limit));
    cbn [snd ChatService.db]; conn_simpl; rewrite ?Htable; auto.
Qed.

Lemma clear_history_connected : forall session_id (self : ChatService.t Env T),
  ChatService.connected (snd (ChatService.clear_history session_id self))
  = ChatService.connected self.
Proof.
  intros session_id self. unfold ChatService.clear_history, ChatService.connected.
  destruct (ChatService.db self) as [dm|] eqn:Hdb; cbn [snd]; [|now rewrite Hdb].
  unfold DatabaseManager.on_db, Sqlite.execute_delete, Sqlite.prepare,
    Sqlite.the_table, Sqlite.commit.
  unfold_actions.
  destruct (Sqlite.is_open (DatabaseManager.db dm)) eqn:Hopen; conn_simpl;
    cbn [snd ChatService.db]; conn_simpl; auto.
  destruct (Sqlite.chat_history (DatabaseManager.db dm)) as [rows|]; conn_simpl;
    cbn [snd ChatService.db]; conn_simpl; auto.
Qed.

Lemma filter_none : forall (p : Sqlite.ChatRow -> bool) rows,
  Forall (fun r => p r = false) rows -> filter p rows = [].
Proof.
  intros p rows H. induction H as [|r rows Hr _ IH]; simpl; [reflexivity|].
  now rewrite Hr.
Qed.

Lemma filter_and_length : forall (p q : Sqlite.ChatRow -> bool) rows,
  (List.length (filter (fun r => p r && q r) rows) <= List.length (filter p rows))%nat.
Proof.
  intros p q rows. induction rows as [|r rows IH]; simpl; [lia|].
  destruct (p r), (q r); simpl; lia.
Qed.

Lemma selected_ext : forall session_id limit rows rows',
  filter (Sqlite.in_session session_id) rows = filter (Sqlite.in_session session_id) rows' ->
  Sqlite.selected session_id limit rows = Sqlite.selected session_id limit rows'.
Proof.
  intros session_id limit rows rows' H. unfold Sqlite.selected. now rewrite H.
Qed.

(** X6. After [clear_history] for a session, [get_history] for it returns
    no message, whatever the limit, and [get_message_stats] returns (0, 0). *)
Theorem clear_history_then_queries_are_empty :
  forall session_id limit (self : ChatService.t Env T),
    let cleared := snd (ChatService.clear_history session_id self) in
    fst (ChatService.get_history session_id limit cleared) = []
    /\ fst (ChatService.get_message_stats session_id cleared) = (0, 0).
Proof.
  intros session_id limit self cleared. subst cleared.
  rewrite get_history_by_history, get_message_stats_by_history.
  rewrite clear_history_connected.
  destruct (clear_history_eq session_id self) as [_ Hafter]. rewrite Hafter.
  fold (ChatService.connected self).
  destruct (ChatService.connected self); [|split; reflexivity].
  assert (Hnone : filter (Sqlite.in_session session_id)
                         (filter (fun r => negb (Sqlite.in_session session_id r))
                                 (ChatService.history self)) = [])
    by apply filter_same_session.
  split.
  - unfold Sqlite.selected. rewrite Hnone. cbn [Sqlite.order_by_id_desc fold_right].
    unfold Sqlite.limit_rows.
    destruct (negb _); cbn [andb]; [|reflexivity].
    destruct (limit <? 0); [reflexivity | now rewrite firstn_nil].
  - rewrite Hnone.
    rewrite (@filter_none (fun r => Sqlite.in_session session_id r && Sqlite.is_user r)).
    + reflexivity.
    + apply Forall_forall. intros r Hr. apply filter_In in Hr as [_ Hr].
      destruct (Sqlite.in_session session_id r); [discriminate Hr | reflexivity].
Qed.

(** X7. [chat] in one session leaves every other session as it was: for a
    session [b] other than the one chatted in, [get_history] and
    [get_message_stats] return after the turn what they returned before it,
    also when the turn was stored in part or not at all. *)
Theorem chat_leaves_other_sessions :
  forall session_id b message limit (self : ChatService.t Env T),
    b <> session_id ->
    let after := snd (ChatService.chat session_id message self) in
    fst (ChatService.get_history b limit after) = fst (ChatService.get_history b limit self)
    /\ fst (ChatService.get_message_stats b after)
       = fst (ChatService.get_message_stats b self).
Proof.
  intros session_id b message limit self Hb after. subst after.
  destruct (chat_rows_after session_id message self)
    as (k & i & t1 & t2 & _ & Hrows & _ & _ & Hconn).
  rewrite !get_history_by_history, !get_message_stats_by_history, Hconn, Hrows.
  assert (Hadded : forall p : Sqlite.ChatRow -> bool,
            (forall r, Sqlite.session_id r = session_id -> p r = false) ->
            forall added, Forall (fun r => Sqlite.session_id r = session_id) added ->
            filter p (ChatService.history self ++ added) = filter p (ChatService.history self)).
  { intros p Hp added Hall. rewrite filter_app, (@filter_none p added), app_nil_r;
      [reflexivity|]. eapply Forall_impl; [|exact Hall]. exact Hp. }
  assert (Hsession : Forall (fun r => Sqlite.session_id r = session_id)
            (firstn k [ Sqlite.mkChatRow i "user" message
                          (ai_current_model_path
                             (snd (ChatService.respond message (ChatService.ai self))))
                          t1 session_id;
                        Sqlite.mkChatRow (i + 1) "assistant"
                          (fst (ChatService.chat session_id message self))
                          (ai_current_model_path
                             (snd (ChatService.respond message (ChatService.ai self))))
                          t2 session_id ])).
  { destruct k as [|[|k]]; cbn [firstn]; rewrite ?firstn_nil; repeat constructor. }
  assert (Hnot : forall r, Sqlite.session_id r = session_id -> Sqlite.in_session b r = false).
  { intros r Hr. unfold Sqlite.in_session. apply String.eqb_neq. congruence. }
  split.
  - erewrite selected_ext; [reflexivity|]. now apply Hadded.
  - rewrite !Hadded; auto. intros r Hr. now rewrite (Hnot r Hr).
Qed.

(** X8. After a turn that was stored, on a table in insertion order, the two
    newest messages of the session are the turn: [get_history session 2]
    returns the assistant's response and then the user's message. *)
Theorem chat_then_get_history :
  forall session_id message (self : ChatService.t Env T),
    ChatService.stored session_id message self = true ->
    StronglySorted Sqlite.older (ChatService.history self) ->
    let response := fst (ChatService.chat session_id message self) in
    exists t1 t2,
      fst (ChatService.get_history session_id 2
             (snd (ChatService.chat session_id message self)))
      = [ [("role", "assistant"); ("message", response); ("created_at", t2)];
          [("role", "user"); ("message", message); ("created_at", t1)] ].
Proof.
  intros session_id message self Hstored Hsorted response.
  destruct (chat_rows_after session_id message self)
    as (k & i & t1 & t2 & _ & Hrows & Hk & Hfresh & Hconn).
  fold response in Hrows.
  apply Hk in Hstored as Hk2. subst k. cbn [firstn] in Hrows.
  assert (Hopen : ChatService.connected self = true).
  { unfold ChatService.stored, ChatService.connected in *.
    destruct (ChatService.db self) as [dm|]; [|discriminate Hstored].
    destruct (ChatService.respond message (ChatService.ai self)) as [resp ai'].
    destruct (store_turn_cases (ai_current_model_path ai') session_id message resp
                (DatabaseManager.db dm)) as (k & _ & _ & _ & _ & Hok & _ & _ & _ & Hpos).
    apply Hpos. destruct (raised _); [discriminate Hstored|].
    rewrite (proj1 Hok eq_refl). discriminate. }
  exists t1, t2. rewrite get_history_by_history, Hconn, Hopen, Hrows. cbn [andb negb orb].
  set (u := Sqlite.mkChatRow i "user" message _ t1 session_id) in *.
  set (a := Sqlite.mkChatRow (i + 1) "assistant" response _ t2 session_id) in *.
  assert (Hasc : StronglySorted Sqlite.older (ChatService.history self ++ [u; a])).
  { change [u; a] with ([u] ++ [a]). rewrite app_assoc.
    apply sorted_snoc; [apply sorted_snoc; assumption|].
    apply Forall_app. split.
    - eapply Forall_impl; [|exact Hfresh]. subst a. cbn. intros; lia.
    - constructor; [subst u a; cbn; lia | constructor]. }
  destruct (@selected_spec session_id 2 (ChatService.history self ++ [u; a]) ltac:(lia))
    as (_ & _ & _ & _ & _ & Hrev).
  rewrite (Hrev Hasc), filter_app. cbn [filter].
  unfold Sqlite.in_session at 2 3. subst u a. cbn [Sqlite.session_id].
  rewrite String.eqb_refl, rev_app_distr. reflexivity.
Qed.

(** X9. A turn that was stored adds two messages to the statistics of its
    session, one of them a user message. *)
Theorem chat_then_get_message_stats :
  forall session_id message (self : ChatService.t Env T),
    ChatService.stored session_id message self = true ->
    let before := fst (ChatService.get_message_stats session_id self) in
    fst (ChatService.get_message_stats session_id
           (snd (ChatService.chat session_id message self)))
    = (fst before + 2, snd before + 1).
Proof.
  intros session_id message self Hstored before. subst before.
  destruct (chat_rows_after session_id message self)
    as (k & i & t1 & t2 & _ & Hrows & Hk & _ & Hconn).
  apply Hk in Hstored. subst k. cbn [firstn] in Hrows.
  rewrite !get_message_stats_by_history, Hconn, Hrows.
  destruct (ChatService.connected self) eqn:Hopen.
  - set (u := Sqlite.mkChatRow i "user" message _ t1 session_id) in *.
    set (a := Sqlite.mkChatRow (i + 1) "assistant" _ _ t2 session_id) in *.
    assert (Hu : Sqlite.in_session session_id u = true) by apply String.eqb_refl.
    assert (Ha : Sqlite.in_session session_id a = true) by apply String.eqb_refl.
    assert (Huser : Sqlite.is_user u = true) by reflexivity.
    assert (Hassistant : Sqlite.is_user a = false) by reflexivity.
    rewrite !filter_app, !length_app. cbn [filter].
    rewrite Hu, Ha, Huser, Hassistant. cbn [andb List.length fst snd]. f_equal; lia.
  - exfalso.
    destruct (chat_rows_after session_id message self)
      as (k & i' & t1' & t2' & _ & _ & Hk' & _ & _).
    unfold ChatService.stored, ChatService.connected in *.
    destruct (ChatService.db self) as [dm|]; [|now destruct Hk as [Hk _]; specialize (Hk eq_refl)].
    destruct (ChatService.respond message (ChatService.ai self)) as [resp ai'].
    destruct (store_turn_cases (ai_current_model_path ai') session_id message resp
                (DatabaseManager.db dm)) as (k2 & _ & _ & _ & _ & Hok & _ & _ & _ & Hpos).
    destruct Hk as [Hk _]. specialize (Hk eq_refl).
    destruct (raised _); [discriminate Hk|].
    rewrite Hpos in Hopen; [discriminate Hopen|]. rewrite (proj1 Hok eq_refl). discriminate.
Qed.

(** X10. Row ids are not used again.  On a table whose ids are within the
    AUTOINCREMENT counter, clearing a session and then chatting gives the new
    rows ids above every id the table held before the clearing, the deleted
    ones included; and the ids stay within the counter. *)
Theorem cleared_ids_are_not_reused :
  forall cleared_session session_id message (self : ChatService.t Env T),
    ChatService.ids_within_sequence self ->
    let cleared := snd (ChatService.clear_history cleared_session self) in
    let after := snd (ChatService.chat session_id message cleared) in
    ChatService.ids_within_sequence after
    /\ forall r, In r (ChatService.history after) ->
         In r (ChatService.history self)
         \/ Forall (fun old => Sqlite.id old < Sqlite.id r) (ChatService.history self).
Proof.
  intros cleared_session session_id message self Hok cleared after.
  (* the state after clearing *)
  assert (Hcleared : match ChatService.db cleared with
                     | Some dm' =>
                       exists dm, ChatService.db self = Some dm
                         /\ Sqlite.sqlite_sequence (DatabaseManager.db dm')
                            = Sqlite.sqlite_sequence (DatabaseManager.db dm)
                         /\ incl (Sqlite.rows_of (DatabaseManager.db dm'))
                                 (Sqlite.rows_of (DatabaseManager.db dm))
                     | None => ChatService.db self = None
                     end).
  { subst cleared. unfold ChatService.clear_history.
    destruct (ChatService.db self) as [dm|] eqn:Hdb; cbn [snd]; [|now rewrite Hdb].
    unfold DatabaseManager.on_db, Sqlite.execute_delete, Sqlite.prepare,
      Sqlite.the_table, Sqlite.commit, Sqlite.rows_of.
    unfold_actions.
    destruct (Sqlite.is_open (DatabaseManager.db dm)) eqn:Hopen; conn_simpl;
      cbn [snd ChatService.db]; conn_simpl.
    - destruct (Sqlite.chat_history (DatabaseManager.db dm)) as [rows|] eqn:Htable;
        conn_simpl; cbn [snd ChatService.db]; conn_simpl; exists dm;
        rewrite ?Htable; repeat split; auto using incl_refl.
      intros r Hr. now apply filter_In in Hr.
    - exists dm. repeat split; auto using incl_refl. }
  pose proof (chat_state session_id message cleared) as Hdb. cbv zeta in Hdb.
  fold after in Hdb.
  unfold ChatService.ids_within_sequence, ChatService.history in *. rewrite Hdb.
  destruct (ChatService.db cleared) as [dm'|]; cbn [option_map].
  2:{ rewrite Hcleared. split; [exact I | intros r []]. }
  destruct Hcleared as (dm & Hself & Hseq & Hincl). rewrite Hself in *.
  cbn [DatabaseManager.db].
  destruct (store_turn_cases
              (ai_current_model_path (snd (ChatService.respond message (ChatService.ai cleared))))
              session_id message (fst (ChatService.chat session_id message cleared))
              (DatabaseManager.db dm'))
    as (k & t1 & t2 & Hk & Hrows & _ & _ & _ & Hseq' & _).
  set (i := Z.max (Sqlite.sqlite_sequence (DatabaseManager.db dm'))
                  (Sqlite.max_rowid (Sqlite.rows_of (DatabaseManager.db dm'))) + 1) in *.
  unfold Sqlite.ids_within_sequence in *.
  assert (Hold : Forall (fun r => Sqlite.id r <= Sqlite.sqlite_sequence (DatabaseManager.db dm))
                        (Sqlite.rows_of (DatabaseManager.db dm'))).
  { rewrite Forall_forall in *. intros r Hr. apply Hok, Hincl, Hr. }
  destruct (max_rowid_bounds (Sqlite.rows_of (DatabaseManager.db dm'))) as [Hnonneg _].
  assert (Hi : Sqlite.sqlite_sequence (DatabaseManager.db dm) < i) by (subst i; lia).
  rewrite Hrows. split.
  - apply Forall_app. split.
    + eapply Forall_impl; [|exact Hold]. cbn beta. intros r Hr.
      destruct k; rewrite Hseq'; lia.
    + destruct k as [|[|k]]; cbn [firstn]; rewrite ?firstn_nil; rewrite Hseq';
        repeat constructor; cbn [Sqlite.id]; lia.
  - intros r Hr. apply in_app_or in Hr as [Hr|Hr]; [left; now apply Hincl|right].
    assert (Hnew : i <= Sqlite.id r).
    { destruct k as [|[|k]]; cbn [firstn] in Hr; rewrite ?firstn_nil in Hr.
      - contradiction.
      - destruct Hr as [<-|[]]. cbn. lia.
      - destruct Hr as [<-|[<-|[]]]; cbn; lia. }
    eapply Forall_impl; [|exact Hok]. cbn beta. intros old Hle. lia.
Qed.

(** X11. The statistics are sound as counts: in every state the number of
    user messages is between 0 and the total. *)
Theorem get_message_stats_bounds :
  forall session_id (self : ChatService.t Env T),
    let stats := fst (ChatService.get_message_stats session_id self) in
    0 <= snd stats <= fst stats.
Proof.
  intros session_id self stats. subst stats. rewrite get_message_stats_by_history.
  destruct (ChatService.connected self); cbn [fst snd]; [|lia].
  pose proof (filter_and_length (Sqlite.in_session session_id) Sqlite.is_user
                                (ChatService.history self)).
  lia.
Qed.

(** X12. [setup_schema] keeps what is stored: on an open connection it
    returns, the table exists afterwards and holds the rows it held (none
    when it is new), so calling it again changes nothing; on a closed
    connection it raises [DatabaseError] with the message prefixed by
    "Failed to setup database schema: " and leaves the table alone. *)
Theorem setup_schema_keeps_rows :
  forall (dm : DatabaseManager.t Env),
    let run := ChatService.setup_schema dm in
    let conn := DatabaseManager.db dm in
    let conn' := DatabaseManager.db (snd run) in
    fst run
    = (if Sqlite.is_open conn then Returned tt
       else Raised (mkExn DatabaseError
                          "Failed to setup database schema: Cannot operate on a closed database."))
    /\ Sqlite.rows_of conn' = Sqlite.rows_of conn
    /\ Sqlite.sqlite_sequence conn' = Sqlite.sqlite_sequence conn
    /\ Sqlite.chat_history conn'
       = (if Sqlite.is_open conn then Some (Sqlite.rows_of conn) else Sqlite.chat_history conn)
    /\ Sqlite.chat_history (DatabaseManager.db (snd (ChatService.setup_schema (snd run))))
       = Sqlite.chat_history conn'.
Proof.
  intros dm run conn conn'. subst run conn'.
  unfold ChatService.setup_schema, DatabaseManager.on_db, Sqlite.execute_create,
    Sqlite.prepare, Sqlite.commit.
  unfold_actions. fold conn.
  destruct (Sqlite.is_open conn) eqn:Hopen; conn_simpl; rewrite ?Hopen; conn_simpl.
  - unfold Sqlite.rows_of. conn_simpl.
    destruct (Sqlite.chat_history conn); repeat split; reflexivity.
  - unfold Sqlite.rows_of. conn_simpl. repeat split; reflexivity.
Qed.

(** X13. [DatabaseManager.sql] commits what it executes and wraps what goes
    wrong: when it returns, it returns the cursor of the statement and no
    transaction is left open; whatever it raises is a [DatabaseError] whose
    message is "SQL execution failed: " followed by the cause. *)
Theorem sql_commits_or_raises_database_error :
  forall (R : Type) (statement : Sqlite.DB Env (Sqlite.Cursor R)) (dm : DatabaseManager.t Env),
    let run := DatabaseManager.sql statement dm in
    (forall cur, fst run = Returned cur ->
        fst (statement (DatabaseManager.db dm)) = Returned cur
        /\ Sqlite.in_transaction (DatabaseManager.db (snd run)) = false
        /\ Sqlite.chat_history (DatabaseManager.db (snd run))
           = Sqlite.chat_history (snd (statement (DatabaseManager.db dm))))
    /\ (forall e, fst run = Raised e ->
          exn_class e = DatabaseError
          /\ exists cause, str e = ("SQL execution failed: " ++ cause)%string).
Proof.
  intros R statement dm run. subst run.
  unfold DatabaseManager.sql, DatabaseManager.on_db, Sqlite.commit. unfold_actions.
  destruct (statement (DatabaseManager.db dm)) as [[cur|e] c]; cbn [fst snd].
  - destruct (Sqlite.is_open c); cbn [fst snd]; conn_simpl; split.
    + intros cur' Heq. injection Heq as <-. repeat split.
    + intros e Habs. discriminate Habs.
    + intros cur' Habs. discriminate Habs.
    + intros e Heq. injection Heq as <-. split; [reflexivity | now eexists].
  - split.
    + intros cur Habs. discriminate Habs.
    + intros e' Heq. injection Heq as <-. split; [reflexivity | now eexists].
Qed.

End ChatServiceMore.

Section ChatWithAIClientMore.
Context {Env : Type} {E : Environment Env}.

(** X14. With an [AIClient], [chat] never answers with the empty string:
    the response is the generated text, one of the two fixed sentences, or
    an error text, in every state of the service. *)
Theorem chat_response_is_never_empty :
  forall session_id message (self : ChatService.t Env (AIClient.t Env)),
    truthy (fst (ChatService.chat session_id message self)) = true.
Proof.
  intros session_id message self. rewrite chat_eq. cbn [fst].
  unfold ChatService.respond, catch. cbn [ai_complete AIClient_is_AI].
  destruct (complete_returns_nonempty message (ChatService.ai self)) as (s & Hs & Hne).
  destruct (AIClient.complete message (ChatService.ai self)) as [[r|e] ai'];
    cbn [fst] in *; [|discriminate Hs].
  injection Hs as ->. unfold truthy.
  destruct (String.eqb_spec s ""); [contradiction | reflexivity].
Qed.

End ChatWithAIClientMore.

Lemma chat_leaves_other_sessions_witness :
  "b" <> "a"
  /\ fst (ChatService.get_history "b" 10
            (snd (ChatService.chat "a" "ping"
                    (a_service (echoing 0) (Some LLAMA) (Some two_sessions) 4))))
     = fst (ChatService.get_history "b" 10
              (a_service (echoing 0) (Some LLAMA) (Some two_sessions) 4)).
Proof.
  assert (Hab : "b" <> "a") by discriminate.
  split; [exact Hab|].
  exact (proj1 (@chat_leaves_other_sessions Echo echo_extension (AIClient.t Echo) _
                  "a" "b" "ping" 10
                  (a_service (echoing 0) (Some LLAMA) (Some two_sessions) 4) Hab)).
Defined.

Lemma two_sessions_in_order : StronglySorted Sqlite.older two_sessions.
Proof.
  unfold two_sessions, Sqlite.older. repeat constructor; cbn; lia.
Qed.

Lemma chat_then_get_history_witness :
  ChatService.stored "a" "ping" (a_service (echoing 0) (Some LLAMA) (Some two_sessions) 4)
  = true
  /\ exists t1 t2,
       fst (ChatService.get_history "a" 2
              (snd (ChatService.chat "a" "ping"
                      (a_service (echoing 0) (Some LLAMA) (Some two_sessions) 4))))
       = [ [("role", "assistant"); ("message", "You said: ping"); ("created_at", t2)];
           [("role", "user"); ("message", "ping"); ("created_at", t1)] ].
Proof.
  split; [reflexivity|].
  exact (@chat_then_get_history Echo echo_extension (AIClient.t Echo) _ "a" "ping"
           (a_service (echoing 0) (Some LLAMA) (Some two_sessions) 4)
           eq_refl two_sessions_in_order).
Defined.

Lemma chat_then_get_message_stats_witness :
  fst (ChatService.get_message_stats "a"
         (snd (ChatService.chat "a" "ping"
                 (a_service (echoing 0) (Some LLAMA) (Some two_sessions) 4))))
  = (4, 2).
Proof.
  exact (@chat_then_get_message_stats Echo echo_extension (AIClient.t Echo) _ "a" "ping"
           (a_service (echoing 0) (Some LLAMA) (Some two_sessions) 4) eq_refl).
Defined.

Lemma two_sessions_within_sequence :
  ChatService.ids_within_sequence (a_service (echoing 0) (Some LLAMA) (Some two_sessions) 4).
Proof.
  unfold ChatService.ids_within_sequence, Sqlite.ids_within_sequence. cbn.
  repeat constructor; cbn; lia.
Qed.

Lemma cleared_ids_are_not_reused_witness :
  map Sqlite.id
      (ChatService.history
         (snd (ChatService.chat "a" "ping"
                 (snd (ChatService.clear_history "b"
                         (a_service (echoing 0) (Some LLAMA) (Some two_sessions) 4))))))
  = [1; 2; 5; 6]
  /\ ChatService.ids_within_sequence
       (snd (ChatService.chat "a" "ping"
               (snd (ChatService.clear_history "b"
                       (a_service (echoing 0) (Some LLAMA) (Some two_sessions) 4))))).
Proof.
  split; [reflexivity|].
  exact (proj1 (@cleared_ids_are_not_reused Echo echo_extension (AIClient.t Echo) _
                  "b" "a" "ping"
                  (a_service (echoing 0) (Some LLAMA) (Some two_sessions) 4)
                  two_sessions_within_sequence)).
Defined.

(** ** sync.py *)

Section SyncClientMore.
Context {Env : Type} {E : Sync.Environment Env}.

(** [_get_uuid] returns; the console and the client id are as before. *)
Lemma get_uuid_returns : forall (p : Process (Sync.SyncClient Env)),
  exists u p',
    Sync._get_uuid p = (Returned u, p')
    /\ console p' = console p
    /\ Sync.client_id (client p') = Sync.client_id (client p).
Proof.
  intros p.
  unfold Sync._get_uuid, Sync.fallback_uuid, Sync.attr, Sync.on_db, Sync.call_extension.
  unfold_actions.
  destruct (Sync.sync_enabled (client p)); cbn [fst snd client console].
  - destruct (Sync.cloudsync_uuid _) as [[[|first rest]|e] [w rows]];
      cbn [fst snd client console hd_error Sync.db Sync.env Sync.todos];
      try destruct (Sync.uuid4 w) as [u w'];
      eexists; eexists; (split; [reflexivity|]); split; reflexivity.
  - destruct (Sync.uuid4 _) as [u w'].
    eexists; eexists; (split; [reflexivity|]); split; reflexivity.
Qed.

(** X15. [_get_uuid] always returns and prints nothing.  In local-only mode
    the id is the one [uuid4] draws and the table is not touched; with sync
    enabled it is the first value the extension yields, and the fallback is
    drawn only when the extension raises or yields no row. *)
Theorem get_uuid_falls_back :
  forall (p : Process (Sync.SyncClient Env)),
    let conn := Sync.db (client p) in
    exists u p',
      Sync._get_uuid p = (Returned u, p')
      /\ console p' = console p
      /\ Sync.sync_enabled (client p') = Sync.sync_enabled (client p)
      /\ Sync.client_id (client p') = Sync.client_id (client p)
      /\ (Sync.sync_enabled (client p) = false ->
          u = fst (Sync.uuid4 (Sync.env conn)) /\ Sync.table p' = Sync.table p)
      /\ (Sync.sync_enabled (client p) = true ->
          match Sync.cloudsync_uuid (Sync.env conn, Sync.todos conn) with
          | (Returned (first :: _), (_, rows)) => u = first /\ Sync.table p' = rows
          | (_, (w, rows)) => u = fst (Sync.uuid4 w) /\ Sync.table p' = rows
          end).
Proof.
  intros p conn. subst conn.
  unfold Sync._get_uuid, Sync.fallback_uuid, Sync.attr, Sync.on_db,
    Sync.call_extension, Sync.table.
  unfold_actions.
  destruct (Sync.sync_enabled (client p)) eqn:Hen; cbn [fst snd client console].
  - destruct (Sync.cloudsync_uuid (Sync.env (Sync.db (client p)),
                                   Sync.todos (Sync.db (client p))))
      as [[[|first rest]|e] [w rows]] eqn:Hext;
      cbn [fst snd client console hd_error Sync.db Sync.env Sync.todos];
      try destruct (Sync.uuid4 w) as [u w'] eqn:Hu;
      cbn [fst snd client console Sync.db Sync.env Sync.todos Sync.sync_enabled
           Sync.client_id];
      eexists; eexists; (split; [reflexivity|]);
      cbn [fst snd client console Sync.db Sync.env Sync.todos Sync.sync_enabled
           Sync.client_id];
      repeat split; auto; try discriminate.
  - destruct (Sync.uuid4 (Sync.env (Sync.db (client p)))) as [u w'] eqn:Hu.
    cbn [fst snd client console Sync.db Sync.env Sync.todos].
    eexists; eexists; (split; [reflexivity|]).
    cbn [fst snd client console Sync.db Sync.env Sync.todos Sync.sync_enabled
         Sync.client_id].
    repeat split; auto; discriminate.
Qed.

(** X16. [add_todo] with the id [_get_uuid] gives: when no todo has the id,
    it returns the id, has appended one todo with the title, not completed,
    with this client as its device, and has printed "Added: title"; when a
    todo has the id already it raises [IntegrityError], and the table and
    the console are as [_get_uuid] left them. *)
Theorem add_todo_appends_or_raises :
  forall title (p : Process (Sync.SyncClient Env)),
    let got := Sync._get_uuid p in
    let run := Sync.add_todo title p in
    exists u,
      fst got = Returned u
      /\ if existsb (Sync.has_id u) (Sync.table (snd got))
         then (exists e, fst run = Raised e /\ exn_class e = IntegrityError)
              /\ Sync.table (snd run) = Sync.table (snd got)
              /\ console (snd run) = console p
         else fst run = Returned u
              /\ (exists t, Sync.table (snd run)
                            = Sync.table (snd got)
                              ++ [Sync.mkTodo u title 0 t (Sync.client_id (client p))])
              /\ console (snd run) = console p ++ [(stdout, ("➕ Added: " ++ title)%string)].
Proof.
  intros title p got run. subst got run.
  destruct (get_uuid_returns p) as (u & p' & Hget & Hconsole & Hid).
  exists u. unfold Sync.add_todo.
  unfold Sync.attr, Sync.on_db, Sync.execute_insert, Sync.commit, Sync.table.
  unfold_actions. rewrite Hget. cbn [fst snd client console].
  split; [reflexivity|].
  destruct (existsb (Sync.has_id u) (Sync.todos (Sync.db (client p')))) eqn:Hdup;
    cbn [fst snd client console Sync.db Sync.todos].
  - split; [eexists; split; reflexivity|]. split; [reflexivity | exact Hconsole].
  - destruct (Sync.CURRENT_TIMESTAMP (Sync.env (Sync.db (client p')))) as [t w].
    cbn [fst snd client console Sync.db Sync.todos].
    split; [reflexivity|]. split; [exists t; now rewrite Hid|]. now rewrite Hconsole.
Qed.

(** An [add_todo] that returned has put its todo at the end of the table. *)
Lemma add_todo_returned : forall title u (p : Process (Sync.SyncClient Env)),
  fst (Sync.add_todo title p) = Returned u ->
  exists rows t,
    Sync.table (snd (Sync.add_todo title p))
    = rows ++ [Sync.mkTodo u title 0 t (Sync.client_id (client p))].
Proof.
  intros title u p.
  destruct (get_uuid_returns p) as (u' & p' & Hget & _ & Hid).
  unfold Sync.add_todo.
  unfold Sync.attr, Sync.on_db, Sync.execute_insert, Sync.commit, Sync.table.
  unfold_actions. rewrite Hget. cbn [fst snd client console].
  destruct (existsb (Sync.has_id u') (Sync.todos (Sync.db (client p'))));
    cbn [fst snd client console Sync.db Sync.todos]; [discriminate|].
  destruct (Sync.CURRENT_TIMESTAMP (Sync.env (Sync.db (client p')))) as [t w].
  cbn [fst snd client console Sync.db Sync.todos].
  intros Hret. injection Hret as <-. rewrite Hid. eexists. eexists. reflexivity.
Qed.

(** X17. Adding and then completing: when [add_todo] returns an id,
    [complete_todo] of that id reports "Todo completed!", and the table then
    holds a todo with the id and the title, completed. *)
Theorem add_todo_then_complete_todo :
  forall title u (p : Process (Sync.SyncClient Env)),
    fst (Sync.add_todo title p) = Returned u ->
    let added := snd (Sync.add_todo title p) in
    let done := snd (Sync.complete_todo u added) in
    console done = console added ++ [(stdout, "✅ Todo completed!")]
    /\ exists t, In t (Sync.table done)
                 /\ Sync.id t = u /\ Sync.title t = title /\ Sync.completed t = 1.
Proof.
  intros title u p Hadd added done. subst added done.
  destruct (add_todo_returned title p Hadd) as (rows & t & Htable).
  destruct (complete_todo_eq u (snd (Sync.add_todo title p))) as (_ & Hdone & Hconsole).
  set (row := Sync.mkTodo u title 0 t (Sync.client_id (client p))) in *.
  assert (Hin : In row (Sync.table (snd (Sync.add_todo title p))))
    by (rewrite Htable; apply in_or_app; right; now left).
  split.
  - rewrite Hconsole. now rewrite (@some_match_counts u _ row Hin eq_refl).
  - exists (Sync.set_completed row). rewrite Hdone. split; [|repeat split].
    apply in_map_iff. exists row. split; [|exact Hin].
    unfold Sync.has_id. subst row. cbn [Sync.id]. now rewrite String.eqb_refl.
Qed.

(** X18. Completing is idempotent on the table: completing a todo that is
    completed leaves the table as it is, and is reported as completed
    again, since the UPDATE counts the rows it matches. *)
Theorem complete_todo_twice :
  forall todo_id (p : Process (Sync.SyncClient Env)),
    let once := snd (Sync.complete_todo todo_id p) in
    let twice := snd (Sync.complete_todo todo_id once) in
    Sync.table twice = Sync.table once
    /\ exists line, console once = console p ++ [line]
                    /\ console twice = console p ++ [line; line].
Proof.
  intros todo_id p once twice. subst once twice.
  destruct (complete_todo_eq todo_id p) as (_ & H1 & C1).
  destruct (complete_todo_eq todo_id (snd (Sync.complete_todo todo_id p))) as (_ & H2 & C2).
  assert (Hmap : forall rows,
            map (fun t => if Sync.has_id todo_id t then Sync.set_completed t else t)
                (map (fun t => if Sync.has_id todo_id t then Sync.set_completed t else t) rows)
            = map (fun t => if Sync.has_id todo_id t then Sync.set_completed t else t) rows).
  { intros rows. rewrite map_map. apply map_ext. intros t.
    destruct (Sync.has_id todo_id t) eqn:Ht; [|now rewrite Ht].
    unfold Sync.has_id in *. cbn [Sync.set_completed Sync.id]. now rewrite Ht. }
  assert (Hfilter : forall rows,
            List.length (filter (Sync.has_id todo_id)
               (map (fun t => if Sync.has_id todo_id t then Sync.set_completed t else t) rows))
            = List.length (filter (Sync.has_id todo_id) rows)).
  { induction rows as [|t rows IH]; [reflexivity|]. cbn [map filter].
    destruct (Sync.has_id todo_id t) eqn:Ht.
    - unfold Sync.has_id in *. cbn [Sync.set_completed Sync.id]. rewrite Ht.
      cbn [List.length]. now rewrite <- IH.
    - rewrite Ht. exact IH. }
  split.
  - rewrite H2, H1. apply Hmap.
  - eexists. split; [exact C1|].
    rewrite C2, H1, Hfilter, C1, <- app_assoc. reflexivity.
Qed.


(** X19. [sync], [setup_cloud] and [close] absorb every failure of the
    extension: they always return.  [sync] prints exactly one line;
    [setup_cloud] prints exactly one line and returns [True] exactly when
    that line is "Connected to SQLite Cloud"; [close] prints nothing. *)
Theorem extension_failures_are_absorbed :
  forall connection_string api_key (p : Process (Sync.SyncClient Env)),
    (exists line,
        fst (Sync.sync p) = Returned tt
        /\ console (snd (Sync.sync p)) = console p ++ [(stdout, line)])
    /\ (exists b line,
          fst (Sync.setup_cloud connection_string api_key p) = Returned b
          /\ console (snd (Sync.setup_cloud connection_string api_key p))
             = console p ++ [(stdout, line)]
          /\ (b = true <-> line = "☁️  Connected to SQLite Cloud"))
    /\ fst (Sync.close p) = Returned tt
    /\ console (snd (Sync.close p)) = console p.
Proof.
  intros connection_string api_key p.
  unfold Sync.sync, Sync.setup_cloud, Sync.close, Sync.attr, Sync.on_db, Sync.call_extension.
  unfold_actions.
  destruct (Sync.sync_enabled (client p)); cbn [negb fst snd client console].
  2:{ split; [eexists; split; reflexivity|].
      split; [|split; reflexivity].
      exists false. eexists. split; [reflexivity|]. split; [reflexivity|].
      split; discriminate. }
  split; [|split].
  - destruct (Sync.cloudsync_network_sync _) as [[rows|e] [w table]];
      cbn [fst snd client console].
    + destruct (0 <? match hd_error rows with Some n => n | None => 0 end);
        eexists; split; reflexivity.
    + eexists; split; reflexivity.
  - destruct (Sync.cloudsync_network_init connection_string _) as [[[]|e] [w table]];
      cbn [fst snd client console Sync.db Sync.env Sync.todos].
    + destruct (Sync.cloudsync_network_set_apikey api_key _) as [[[]|e] [w' table']];
        cbn [fst snd client console].
      * exists true. eexists. split; [reflexivity|]. split; [reflexivity|]. split; reflexivity.
      * exists false. eexists. split; [reflexivity|]. split; [reflexivity|].
        split; [discriminate|]. intros Habs. cbn in Habs. discriminate Habs.
    + exists false. eexists. split; [reflexivity|]. split; [reflexivity|].
      split; [discriminate|]. intros Habs. cbn in Habs. discriminate Habs.
  - destruct (Sync.cloudsync_terminate _) as [[[]|e] [w table]]; split; reflexivity.
Qed.

(** X20. In local-only mode the extension is left alone: [sync] and
    [setup_cloud] only print that sync is not there ([setup_cloud] returning
    [False]), and [close] goes straight to closing the connection; the
    client, its table and the world behind it are exactly as before. *)
Theorem local_only_mode_skips_the_extension :
  forall connection_string api_key (p : Process (Sync.SyncClient Env)),
    Sync.sync_enabled (client p) = false ->
    Sync.sync p = (Returned tt, mkProcess (client p) (console p ++ [(stdout, "❌ Sync not enabled")]))
    /\ Sync.setup_cloud connection_string api_key p
       = (Returned false,
          mkProcess (client p) (console p ++ [(stdout, "❌ Sync not available")]))
    /\ Sync.close p = (Returned tt, p).
Proof.
  intros connection_string api_key p Hlocal.
  unfold Sync.sync, Sync.setup_cloud, Sync.close, Sync.attr. unfold_actions.
  rewrite Hlocal. cbn [negb]. repeat split.
Qed.

(** X21. [_setup_schema] turns sync on exactly when [cloudsync_init]
    returns.  An [OperationalError] of it (the extension is not loaded) is
    absorbed and turns sync off; any other exception of it is not caught
    and escapes, leaving the flag as it was.  The table is only touched by
    the extension. *)
Theorem setup_schema_sets_sync_enabled :
  forall (p : Process (Sync.SyncClient Env)),
    let conn := Sync.db (client p) in
    let run := Sync._setup_schema p in
    match Sync.cloudsync_init "todos" (Sync.env conn, Sync.todos conn) with
    | (Returned _, (_, rows)) =>
      fst run = Returned tt
      /\ Sync.sync_enabled (client (snd run)) = true /\ Sync.table (snd run) = rows
    | (Raised e, (_, rows)) =>
      Sync.table (snd run) = rows
      /\ if is_class OperationalError (exn_class e)
         then fst run = Returned tt /\ Sync.sync_enabled (client (snd run)) = false
         else fst run = Raised e
              /\ Sync.sync_enabled (client (snd run)) = Sync.sync_enabled (client p)
    end.
Proof.
  intros p conn run. subst conn run.
  unfold Sync._setup_schema, Sync.on_db, Sync.call_extension, Sync.execute_create,
    Sync.commit, Sync.set_sync_enabled, Sync.table, try_except_only.
  unfold_actions. cbn [fst snd client console Sync.db Sync.env Sync.todos].
  destruct (Sync.cloudsync_init "todos" _) as [[[]|e] [w rows]];
    cbn [fst snd client console Sync.db Sync.env Sync.todos Sync.sync_enabled].
  - repeat split.
  - destruct (is_class OperationalError (exn_class e));
      cbn [fst snd client console Sync.db Sync.env Sync.todos Sync.sync_enabled];
      repeat split.
Qed.





End SyncClientMore.

Lemma add_todo_then_complete_todo_witness :
  fst (Sync.add_todo "Write tests" device_a) = Returned (uuid_of 0)
  /\ console (snd (Sync.complete_todo (uuid_of 0) (snd (Sync.add_todo "Write tests" device_a))))
     = [(stdout, "➕ Added: Write tests"); (stdout, "✅ Todo completed!")].
Proof.
  split; [reflexivity|].
  exact (proj1 (@add_todo_then_complete_todo Device local_only "Write tests" (uuid_of 0)
                  device_a eq_refl)).
Defined.

Lemma local_only_mode_witness :
  Sync.sync_enabled (client device_a) = false
  /\ Sync.sync device_a
     = (Returned tt, mkProcess (client device_a) [(stdout, "❌ Sync not enabled")]).
Proof.
  split; [reflexivity|].
  exact (proj1 (@local_only_mode_skips_the_extension Device local_only "url" "key"
                  device_a eq_refl)).
Defined.

(** ** The interactive shell of sync.py *)

Section ShellFacts.

Lemma chars_append : forall a b, Sync.chars (a ++ b)%string = Sync.chars a ++ Sync.chars b.
Proof.
  intros a b. unfold Sync.chars. induction a as [|c a IH]; cbn; [reflexivity | now rewrite IH].
Qed.

Lemma truthy_nonempty_iff : forall s, truthy s = true <-> s <> "".
Proof.
  intros s. unfold truthy. destruct (String.eqb_spec s ""); cbn; split; congruence.
Qed.

Lemma truthy_snoc : forall s c, truthy (s ++ String c "")%string = true.
Proof.
  intros s c. apply truthy_nonempty_iff. destruct s; discriminate.
Qed.

(** What the tokenizer keeps true of its state, character by character. *)
Lemma lex_invariant : forall input st,
  Forall (fun part => truthy part = true) (Sync.cmd_parts st) ->
  Forall (fun part => ~ In Sync.QUOTE (Sync.chars part)) (Sync.cmd_parts st) ->
  ~ In Sync.QUOTE (Sync.chars (Sync.current_part st)) ->
  let st' := fold_left Sync.lex_char input st in
  Forall (fun part => truthy part = true) (Sync.cmd_parts st')
  /\ Forall (fun part => ~ In Sync.QUOTE (Sync.chars part)) (Sync.cmd_parts st')
  /\ ~ In Sync.QUOTE (Sync.chars (Sync.current_part st')).
Proof.
  induction input as [|c input IH]; intros st Hne Hq Hcur; cbn [fold_left].
  { repeat split; assumption. }
  apply IH; unfold Sync.lex_char;
    destruct (Ascii.eqb_spec c Sync.QUOTE) as [Hc|Hc]; cbn [andb];
    destruct (Sync.in_quotes st); cbn [negb andb Sync.cmd_parts Sync.current_part];
    try assumption;
    destruct (Ascii.eqb_spec c Sync.SPACE) as [Hs|Hs];
    cbn [negb andb Sync.cmd_parts Sync.current_part]; try assumption;
    try (destruct (truthy (Sync.current_part st)) eqn:Ht;
         cbn [Sync.cmd_parts Sync.current_part]; try assumption);
    try (apply Forall_app; split; [assumption | constructor; [assumption | constructor]]);
    try (intros []);
    rewrite chars_append; intros Hin; apply in_app_or in Hin as [Hin|[Hin|[]]];
    auto.
Qed.

(** One character that is no quote, outside quotes. *)
Lemma lex_char_unquoted : forall st c,
  c <> Sync.QUOTE -> Sync.in_quotes st = false ->
  Sync.lex_char st c
  = if (c =? Sync.SPACE)%char
    then (if truthy (Sync.current_part st)
          then Sync.mkLexer (Sync.cmd_parts st ++ [Sync.current_part st]) "" false
          else st)
    else Sync.mkLexer (Sync.cmd_parts st) (Sync.current_part st ++ String c "")%string false.
Proof.
  intros st c Hc Hout. unfold Sync.lex_char.
  destruct (Ascii.eqb_spec c Sync.QUOTE) as [|_]; [contradiction|].
  rewrite Hout. cbn [andb negb]. destruct (c =? Sync.SPACE)%char; reflexivity.
Qed.

(** On a line without quotes the tokenizer never is inside quotes, no part
    gets a space, and the parts and the current part together are the
    characters read so far without the spaces. *)
Lemma lex_unquoted : forall input st,
  ~ In Sync.QUOTE input ->
  Sync.in_quotes st = false ->
  Forall (fun part => ~ In Sync.SPACE (Sync.chars part)) (Sync.cmd_parts st) ->
  ~ In Sync.SPACE (Sync.chars (Sync.current_part st)) ->
  let st' := fold_left Sync.lex_char input st in
  Sync.in_quotes st' = false
  /\ Forall (fun part => ~ In Sync.SPACE (Sync.chars part)) (Sync.cmd_parts st')
  /\ ~ In Sync.SPACE (Sync.chars (Sync.current_part st'))
  /\ flat_map Sync.chars (Sync.cmd_parts st') ++ Sync.chars (Sync.current_part st')
     = (flat_map Sync.chars (Sync.cmd_parts st) ++ Sync.chars (Sync.current_part st))
       ++ filter (fun c => negb (c =? Sync.SPACE)%char) input.
Proof.
  induction input as [|c input IH]; intros st Hnq Hout Hparts Hcur; cbn [fold_left filter].
  { rewrite app_nil_r. repeat split; assumption. }
  assert (Hc : c <> Sync.QUOTE) by (intros ->; apply Hnq; now left).
  assert (Hrest : ~ In Sync.QUOTE input) by (intros H; apply Hnq; now right).
  rewrite (lex_char_unquoted st Hc Hout).
  destruct (Ascii.eqb_spec c Sync.SPACE) as [Hs|Hs]; cbn [negb].
  - destruct (truthy (Sync.current_part st)) eqn:Ht.
    + destruct (IH (Sync.mkLexer (Sync.cmd_parts st ++ [Sync.current_part st]) "" false)
                   Hrest eq_refl) as (H1 & H2 & H3 & H4).
      * apply Forall_app. split; [assumption | constructor; [assumption | constructor]].
      * intros [].
      * repeat split; try assumption.
        rewrite H4. cbn [Sync.cmd_parts Sync.current_part]. rewrite flat_map_app.
        cbn [flat_map]. unfold Sync.chars at 4. cbn [list_ascii_of_string].
        now rewrite !app_nil_r.
    + destruct (IH st Hrest Hout Hparts Hcur) as (H1 & H2 & H3 & H4).
      repeat split; assumption.
  - destruct (IH (Sync.mkLexer (Sync.cmd_parts st)
                               (Sync.current_part st ++ String c "")%string false)
                 Hrest eq_refl) as (H1 & H2 & H3 & H4).
    + assumption.
    + cbn [Sync.current_part]. rewrite chars_append.
      intros Hin. apply in_app_or in Hin as [Hin|[Hin|[]]]; auto.
    + repeat split; try assumption.
      rewrite H4. cbn [Sync.cmd_parts Sync.current_part].
      rewrite chars_append, <- !app_assoc. reflexivity.
Qed.

(** X23. The tokenizer of the shell: no part is empty and no part holds a
    quote; and on a line without quotes no part holds a space and the
    parts, put together, are the line without its spaces. *)
Theorem parse_command_parts :
  forall cmd_input,
    let parts := Sync.parse_command cmd_input in
    Forall (fun part => truthy part = true) parts
    /\ Forall (fun part => ~ In Sync.QUOTE (Sync.chars part)) parts
    /\ (~ In Sync.QUOTE (Sync.chars cmd_input) ->
        Forall (fun part => ~ In Sync.SPACE (Sync.chars part)) parts
        /\ flat_map Sync.chars parts
           = filter (fun c => negb (c =? Sync.SPACE)%char) (Sync.chars cmd_input)).
Proof.
  intros cmd_input parts. subst parts. unfold Sync.parse_command, Sync.lex.
  destruct (@lex_invariant (Sync.chars cmd_input) (Sync.mkLexer [] "" false)
              (Forall_nil _) (Forall_nil _) (fun H => H))
    as (Hne & Hq & Hcur).
  split; [|split].
  - destruct (truthy _) eqn:Ht; [|exact Hne].
    apply Forall_app. split; [exact Hne | constructor; [exact Ht | constructor]].
  - destruct (truthy _); [|exact Hq].
    apply Forall_app. split; [exact Hq | constructor; [exact Hcur | constructor]].
  - intros Hnq.
    destruct (@lex_unquoted (Sync.chars cmd_input) (Sync.mkLexer [] "" false) Hnq eq_refl
                (Forall_nil _) (fun H => H))
      as (_ & Hsp & Hcs & Hall).
    cbn [Sync.cmd_parts Sync.current_part flat_map] in Hall.
    change (Sync.chars "") with (@nil ascii) in Hall. cbn [app] in Hall.
    destruct (truthy _) eqn:Ht.
    + split; [apply Forall_app; split; [exact Hsp | constructor; [exact Hcs | constructor]]|].
      rewrite flat_map_app. cbn [flat_map]. now rewrite app_nil_r.
    + split; [exact Hsp|]. rewrite <- Hall.
      assert (Hempty : Sync.current_part (fold_left Sync.lex_char (Sync.chars cmd_input)
                                                    (Sync.mkLexer [] "" false)) = "").
      { destruct (String.eqb_spec (Sync.current_part
                    (fold_left Sync.lex_char (Sync.chars cmd_input) (Sync.mkLexer [] "" false))) "")
          as [H|H]; [exact H|]. apply truthy_nonempty_iff in H. congruence. }
      rewrite Hempty. change (Sync.chars "") with (@nil ascii). now rewrite app_nil_r.
Qed.


Lemma append_snoc : forall a c b, ((a ++ String c "") ++ b)%string = (a ++ String c b)%string.
Proof.
  intros a c b. induction a as [|x a IH]; cbn; [reflexivity | now rewrite IH].
Qed.

Lemma append_empty : forall a, (a ++ "")%string = a.
Proof.
  induction a as [|x a IH]; cbn; [reflexivity | now rewrite IH].
Qed.

(** Characters that are neither quote nor space join the current part. *)
Lemma lex_word : forall input st,
  Forall (fun c => c <> Sync.QUOTE /\ c <> Sync.SPACE) input ->
  fold_left Sync.lex_char input st
  = Sync.mkLexer (Sync.cmd_parts st)
                 (Sync.current_part st ++ string_of_list_ascii input)%string
                 (Sync.in_quotes st).
Proof.
  induction input as [|c input IH]; intros st Hall; cbn [fold_left string_of_list_ascii].
  { rewrite append_empty. now destruct st. }
  apply Forall_cons_iff in Hall as [[Hq Hs] Hall]. rewrite (IH _ Hall).
  unfold Sync.lex_char.
  destruct (Ascii.eqb_spec c Sync.QUOTE) as [|_]; [contradiction|].
  destruct (Ascii.eqb_spec c Sync.SPACE) as [|_]; [contradiction|].
  cbn [andb Sync.cmd_parts Sync.current_part Sync.in_quotes]. now rewrite append_snoc.
Qed.

(** Inside quotes every character that is no quote joins the current part,
    spaces too. *)
Lemma lex_quoted : forall input st,
  Sync.in_quotes st = true ->
  ~ In Sync.QUOTE input ->
  fold_left Sync.lex_char input st
  = Sync.mkLexer (Sync.cmd_parts st)
                 (Sync.current_part st ++ string_of_list_ascii input)%string true.
Proof.
  induction input as [|c input IH]; intros st Hin Hnq; cbn [fold_left string_of_list_ascii].
  { rewrite append_empty. destruct st. cbn in Hin. now subst. }
  assert (Hc : c <> Sync.QUOTE) by (intros ->; apply Hnq; now left).
  assert (Hrest : ~ In Sync.QUOTE input) by (intros H; apply Hnq; now right).
  assert (Hstep : Sync.lex_char st c
                  = Sync.mkLexer (Sync.cmd_parts st)
                                 (Sync.current_part st ++ String c "")%string true).
  { unfold Sync.lex_char. destruct (Ascii.eqb_spec c Sync.QUOTE) as [|_]; [contradiction|].
    rewrite Hin. cbn [andb negb]. now rewrite Bool.andb_false_r. }
  rewrite Hstep.
  rewrite (IH (Sync.mkLexer (Sync.cmd_parts st)
                            (Sync.current_part st ++ String c "")%string true)
              eq_refl Hrest).
  cbn [Sync.cmd_parts Sync.current_part]. now rewrite append_snoc.
Qed.

Lemma string_of_chars : forall s, string_of_list_ascii (Sync.chars s) = s.
Proof.
  intros s. apply string_of_list_ascii_of_string.
Qed.

(** The tokenizer after a command word, a space and a quoted text. *)
Lemma lex_word_then_quoted : forall word text,
  word <> "" ->
  Forall (fun c => c <> Sync.QUOTE /\ c <> Sync.SPACE) (Sync.chars word) ->
  ~ In Sync.QUOTE (Sync.chars text) ->
  Sync.lex (word ++ " " ++ String Sync.QUOTE (text ++ String Sync.QUOTE ""))%string
  = Sync.mkLexer [word] text false.
Proof.
  intros word text Hword Hplain Hnq. unfold Sync.lex.
  rewrite chars_append. change (Sync.chars (" " ++ String Sync.QUOTE (text ++ String Sync.QUOTE "")))
    with (Sync.SPACE :: Sync.QUOTE :: Sync.chars (text ++ String Sync.QUOTE "")).
  rewrite chars_append. change (Sync.chars (String Sync.QUOTE "")) with [Sync.QUOTE].
  rewrite fold_left_app, (lex_word _ Hplain).
  cbn [fold_left Sync.cmd_parts Sync.current_part Sync.in_quotes append].
  rewrite string_of_chars.
  assert (Hw : truthy word = true) by now apply truthy_nonempty_iff.
  assert (Hspace : Sync.lex_char (Sync.mkLexer [] word false) Sync.SPACE
                   = Sync.mkLexer [word] "" false).
  { unfold Sync.lex_char. cbn [Sync.in_quotes Sync.current_part Sync.cmd_parts].
    now rewrite Hw. }
  rewrite Hspace.
  change (Sync.lex_char (Sync.mkLexer [word] "" false) Sync.QUOTE)
    with (Sync.mkLexer [word] "" true).
  rewrite fold_left_app,
    (@lex_quoted (Sync.chars text) (Sync.mkLexer [word] "" true) eq_refl Hnq).
  cbn [fold_left Sync.cmd_parts Sync.current_part Sync.in_quotes append].
  rewrite string_of_chars. reflexivity.
Qed.

(** X24. A quoted argument is one part, spaces and all, without the
    quotes: a command word followed by a space and a quoted text is
    tokenized into the word and the text. *)
Theorem parse_command_quoted_argument :
  forall word text,
    word <> "" ->
    Forall (fun c => c <> Sync.QUOTE /\ c <> Sync.SPACE) (Sync.chars word) ->
    text <> "" ->
    ~ In Sync.QUOTE (Sync.chars text) ->
    Sync.parse_command
      (word ++ " " ++ String Sync.QUOTE (text ++ String Sync.QUOTE ""))%string
    = [word; text].
Proof.
  intros word text Hword Hplain Htext Hnq.
  unfold Sync.parse_command. rewrite (@lex_word_then_quoted word text Hword Hplain Hnq).
  cbn [Sync.cmd_parts Sync.current_part app].
  apply truthy_nonempty_iff in Htext. now rewrite Htext.
Qed.

End ShellFacts.

Lemma parse_command_quoted_argument_witness :
  Sync.parse_command ("add " ++ String Sync.QUOTE ("buy  milk" ++ String Sync.QUOTE ""))%string
  = ["add"; "buy  milk"].
Proof.
  refine (@parse_command_quoted_argument "add" "buy  milk" _ _ _ _).
  - discriminate.
  - repeat constructor; discriminate.
  - discriminate.
  - cbn. intros H. repeat (destruct H as [H|H]; [discriminate H|]). exact H.
Defined.

Section ShellLoopFacts.
Context {Env : Type} {E : Sync.Environment Env}.



(** X26. The shell command add with a quoted title adds a todo with
    exactly that title: the line is handled as [add_todo title], and an
    exception of it (the id is taken) is reported on the console instead of
    ending the shell. *)
Theorem handle_line_add_quoted_title :
  forall title (p : Process (Sync.SyncClient Env)),
    title <> "" ->
    ~ In Sync.QUOTE (Sync.chars title) ->
    Sync.handle_line ("add " ++ String Sync.QUOTE (title ++ String Sync.QUOTE ""))%string p
    = match Sync.add_todo title p with
      | (Returned _, p') => (Returned Sync.Continue, p')
      | (Raised e, p') =>
        (Returned Sync.Continue,
         mkProcess (client p') (console p' ++ [(stdout, ("❌ Error: " ++ str e)%string)]))
      end.
Proof.
  intros title p Htitle Hnq. unfold Sync.handle_line.
  change (truthy ("add " ++ String Sync.QUOTE (title ++ String Sync.QUOTE ""))) with true.
  cbn [negb].
  assert (Hparts : Sync.parse_command
                     ("add " ++ String Sync.QUOTE (title ++ String Sync.QUOTE ""))%string
                   = ["add"; title]).
  { assert (Hlex : Sync.lex ("add " ++ String Sync.QUOTE (title ++ String Sync.QUOTE ""))%string
                   = Sync.mkLexer ["add"] title false).
    { apply (@lex_word_then_quoted "add" title); auto.
      - discriminate.
      - repeat constructor; discriminate. }
    unfold Sync.parse_command. rewrite Hlex.
    cbn [Sync.cmd_parts Sync.current_part app].
    apply truthy_nonempty_iff in Htitle. now rewrite Htitle. }
  rewrite Hparts. unfold Sync.dispatch. cbn [nth tl List.length].
  change (Sync.is_quit "add") with false.
  change (("add" =? "add")%string && (1 <? Z.of_nat 2)) with true.
  cbn [String.concat]. unfold_actions.
  destruct (Sync.add_todo title p) as [[u|e] p']; reflexivity.
Qed.

End ShellLoopFacts.

Lemma handle_line_add_quoted_title_witness :
  map Sync.title
      (Sync.table (snd (Sync.handle_line
                          ("add " ++ String Sync.QUOTE ("buy  milk" ++ String Sync.QUOTE ""))%string
                          device_a)))
  = ["Learn SQLite-Sync"; "Build awesome app"; "buy  milk"].
Proof.
  rewrite (@handle_line_add_quoted_title Device local_only "buy  milk" device_a).
  - reflexivity.
  - discriminate.
  - cbn. intros H. repeat (destruct H as [H|H]; [discriminate H|]). exact H.
Defined.

(** ** cli.py of the chatbot *)

Section ChatbotProgramFacts.
Context {Env : Type} {E : Environment Env}.

(** [load_model] returns and keeps the session id. *)
Lemma load_model_returns : forall model_path (self : AIClient.t Env),
  exists b, fst (AIClient.load_model model_path self) = Returned b
            /\ AIClient.session_id (snd (AIClient.load_model model_path self))
               = AIClient.session_id self.
Proof.
  intros model_path self. unfold AIClient.load_model.
  destruct (negb (AIClient.path_exists self model_path)); [now exists false|].
  unfold AIClient.on_database_manager, DatabaseManager.on_db, AIClient.set_current_model_path.
  unfold_actions.
  destruct (Sqlite.execute_llm_model_load model_path _) as [[cur|e] c]; eexists; split;
    reflexivity.
Qed.

(** X27. Started without a subcommand, or with --interactive, the chatbot
    program always fails: the group callback prints "Failed to start
    chatbot: ..." and exits with 1.  When the database opened, the reason is
    that [AIClient] has no [interactive_mode]. *)
Theorem cli_without_subcommand_exits_with_1 :
  forall connect uuid client_id model_path interactive invoked_subcommand
         (p : Process (option (AIClient.t Env))),
    interactive = true \/ invoked_subcommand = None ->
    exists reason p',
      Cli.cli connect uuid client_id model_path interactive invoked_subcommand p
      = (Cli.Exits 1, p')
      /\ console p'
         = console p ++ [(stdout, ("❌ Failed to start chatbot: " ++ reason)%string)]
      /\ (forall conn, connect client_id = Returned conn ->
            reason = "'AIClient' object has no attribute 'interactive_mode'").
Proof.
  intros connect uuid client_id model_path interactive invoked_subcommand p Hmode.
  unfold Cli.cli, AIClient.init, DatabaseManager.init.
  destruct (connect client_id) as [conn|e] eqn:Hconnect.
  - assert (Hgo : interactive
                  || match invoked_subcommand with None => true | Some _ => false end = true).
    { destruct Hmode as [-> | ->]; [reflexivity | apply Bool.orb_true_r]. }
    rewrite Hgo. eexists. eexists. split; [reflexivity|]. split; [reflexivity|].
    intros conn' _. reflexivity.
  - eexists. eexists. split; [reflexivity|]. split; [reflexivity|].
    intros conn Habs. discriminate Habs.
Qed.

(** X28. The chatbot program exits with 0 in one case only: the subcommand
    is load, --interactive is not given and the database opens.  The other
    subcommands call methods [AIClient] does not have, so they end in an
    [AttributeError] and the exit status 1. *)
Theorem main_exits_with_0_only_for_load :
  forall connect uuid client_id model_path interactive invoked_subcommand,
    fst (Cli.main (E := E) connect uuid client_id model_path interactive invoked_subcommand) = 0
    <-> interactive = false
        /\ (exists conn, connect client_id = Returned conn)
        /\ (exists path, invoked_subcommand = Some (Cli.Load path)).
Proof.
  intros connect uuid client_id model_path interactive invoked_subcommand.
  unfold Cli.main, Cli.cli, AIClient.init, DatabaseManager.init.
  destruct (connect client_id) as [conn|e] eqn:Hconnect; cbn [fst snd echo echo_to].
  2:{ split; [discriminate|]. intros (_ & (conn & Habs) & _). discriminate Habs. }
  destruct interactive; cbn [orb fst].
  { split; [discriminate | intros (Habs & _); discriminate Habs]. }
  destruct invoked_subcommand as [[message| | |path|]|]; cbn [fst];
    try (split; [discriminate | intros (_ & _ & (path' & Habs)); discriminate Habs]).
  unfold Cli.invoke, Cli.load, Cli.started. cbn [client console]. unfold bind.
  match goal with
  | |- context [AIClient.load_model path ?c] =>
    destruct (load_model_returns path c) as (b & Hb & _);
    destruct (AIClient.load_model path c) as [o c']
  end.
  cbn [fst] in Hb. subst o. cbn [ret exit_code fst].
  split; [intros _|reflexivity]. repeat split; eauto.
Qed.

(** X29. The client the program starts does not carry the given client id:
    the id is handed to the constructor as the database path, so it names
    the database that is opened, and the session id is the first 8
    characters of a fresh uuid. *)
Theorem cli_takes_client_id_as_database_path :
  forall connect uuid client_id model_path interactive invoked_subcommand
         (p p' : Process (option (AIClient.t Env))),
    Cli.cli connect uuid client_id model_path interactive invoked_subcommand p
    = (Cli.Proceeds, p') ->
    exists conn c,
      connect client_id = Returned conn
      /\ client p' = Some c
      /\ AIClient.session_id c = substring 0 8 uuid
      /\ console p' = console p
      /\ (model_path = None ->
          c = AIClient.mk (substring 0 8 uuid) (DatabaseManager.mk None conn) None).
Proof.
  intros connect uuid client_id model_path interactive invoked_subcommand p p'.
  unfold Cli.cli, AIClient.init, DatabaseManager.init.
  destruct (connect client_id) as [conn|e]; [|discriminate].
  destruct (interactive || _); [discriminate|].
  intros Heq. injection Heq as <-. exists conn. eexists.
  split; [reflexivity|]. split; [reflexivity|]. split; [|split; [reflexivity|]].
  - destruct (truthy_opt model_path); [|reflexivity].
    match goal with
    | |- context [AIClient.load_model ?m ?c] =>
      destruct (load_model_returns m c) as (b & _ & Hid); exact Hid
    end.
  - intros ->. reflexivity.
Qed.

End ChatbotProgramFacts.

Lemma cli_without_subcommand_witness :
  exists reason p',
    Cli.cli (fun _ => Returned (a_connection (offline 0) None 0)) "12345678-9abc" "me"
            None false None (mkProcess None [])
    = (Cli.Exits 1, p')
    /\ console p' = [(stdout, ("❌ Failed to start chatbot: " ++ reason)%string)].
Proof.
  destruct (@cli_without_subcommand_exits_with_1 Offline no_extension
              (fun _ => Returned (a_connection (offline 0) None 0)) "12345678-9abc" "me"
              None false None (mkProcess None []) (or_intror eq_refl))
    as (reason & p' & Hrun & Hconsole & _).
  exists reason, p'. split; assumption.
Defined.

Lemma cli_takes_client_id_witness :
  exists (conn : Sqlite.Connection Offline) (c : AIClient.t Offline),
    (fun path : string =>
       if (path =? "me")%string then Returned (a_connection (offline 0) None 0)
       else Raised (mkExn OperationalError "unable to open database file")) "me"
    = Returned conn
    /\ AIClient.session_id c = "12345678".
Proof.
  destruct (@cli_takes_client_id_as_database_path Offline no_extension
              (fun path : string =>
                 if (path =? "me")%string then Returned (a_connection (offline 0) None 0)
                 else Raised (mkExn OperationalError "unable to open database file"))
              "12345678-9abc" "me" None false (Some (Cli.Load LLAMA))
              (mkProcess None []) _ eq_refl)
    as (conn & c & Hconn & _ & Hid & _).
  exists conn, c. split; [exact Hconn | exact Hid].
Defined.
